(** * chibaka_api_tool: the request runner and the report generators

    A shallow embedding of the request/report pipeline of the repository
    (the module that exports [runTestCase], [generateJUnitReport] and
    [generateAllureHtml]) and the properties its specification states about it.

    Conventions of the embedding.
    - A JavaScript string is a [string] holding its UTF-8 bytes.  The reserved
      characters of XML, HTML and URLs are ASCII, so the replacements and the
      percent-encoding below act on bytes exactly as the source acts on
      characters.  A JavaScript string may hold a surrogate that is not part
      of a pair, which UTF-8 does not encode: it is held as the three bytes
      [ED A0..BF 80..BF] of the generalized encoding, and a pair of surrogates
      always as the four bytes of its character.
    - A JavaScript number is a [number]: an integer-valued double in the safe
      range ([Fin z]), [NaN] or an infinity.  HTTP status codes, millisecond
      clock readings and their differences and sums are such numbers; a number
      with a fractional part has no value here, so a test case of the model
      expects a whole status and allows a whole number of seconds.
    - A property that may be [undefined] or [null] is an [option]; where the
      source tells [undefined] from [null] ([Number(null)] is [0]) the field
      has type [numField].
    - What the JavaScript runtime provides and the repository does not define
      ([JSON.parse], the locale rendering of dates, the presence of
      [FormData], the wording of the errors of the platform) is a [Runtime];
      the HTTP client is a reply oracle, whose call answers, throws or never
      settles. *)

From Stdlib Require Import ZArith String Ascii List Lia Bool DecimalString.
From stdpp Require Import gmap strings.

Local Open Scope string_scope.
Local Open Scope list_scope.
Local Open Scope Z_scope.

(** ** JavaScript strings *)

Module Js.

(** The double quote, as a character and as a one-character string. *)
Definition dqc : ascii := "034"%char.
Definition dq : string := String dqc EmptyString.

(** The line feed, written [\n] in the source. *)
Definition nl : string := String "010"%char EmptyString.

Definition code (a : ascii) : Z := Z.of_N (N_of_ascii a).

Definition chr (z : Z) : ascii := ascii_of_N (Z.to_N z).

Definition inRange (lo hi : Z) (a : ascii) : bool :=
  (lo <=? code a) && (code a <=? hi).

Definition isByte (z : Z) (a : ascii) : bool := code a =? z.

(** [String.prototype.includes] for a one-character needle. *)
Fixpoint includes (c : ascii) (s : string) : bool :=
  match s with
  | EmptyString => false
  | String a r => if Ascii.eqb a c then true else includes c r
  end.

(** [s.replace(/c/g, by)] for a one-character pattern. *)
Fixpoint replaceAll (c : ascii) (by_ : string) (s : string) : string :=
  match s with
  | EmptyString => EmptyString
  | String a r =>
      if Ascii.eqb a c then by_ +:+ replaceAll c by_ r
      else String a (replaceAll c by_ r)
  end.

(** [Array.prototype.join]. *)
Fixpoint join (sep : string) (l : list string) : string :=
  match l with
  | [] => EmptyString
  | [x] => x
  | x :: r => x +:+ sep +:+ join sep r
  end.

(** *** Whitespace and [trim]

    [String.prototype.trim] removes the characters of the WhiteSpace and
    LineTerminator productions: U+0009..U+000D, U+0020, U+00A0, U+1680,
    U+2000..U+200A, U+2028, U+2029, U+202F, U+205F, U+3000 and U+FEFF.
    [wsLen s] is the number of bytes of the whitespace character at the head
    of [s], or [0] when [s] does not start with one. *)
Definition wsLen (s : string) : nat :=
  match s with
  | String a r =>
      if inRange 9 13 a || isByte 32 a then 1%nat
      else match r with
      | String b r' =>
          if isByte 194 a && isByte 160 b then 2%nat
          else match r' with
          | String c _ =>
              if isByte 225 a && isByte 154 b && isByte 128 c then 3%nat
              else if isByte 226 a && isByte 128 b
                      && (inRange 128 138 c || isByte 168 c || isByte 169 c || isByte 175 c)
              then 3%nat
              else if isByte 226 a && isByte 129 b && isByte 159 c then 3%nat
              else if isByte 227 a && isByte 128 b && isByte 128 c then 3%nat
              else if isByte 239 a && isByte 187 b && isByte 191 c then 3%nat
              else 0%nat
          | EmptyString => 0%nat
          end
      | EmptyString => 0%nat
      end
  | EmptyString => 0%nat
  end.

(** The same test on a reversed string: the last byte comes first. *)
Definition wsLenRev (s : string) : nat :=
  match s with
  | String c r =>
      if inRange 9 13 c || isByte 32 c then 1%nat
      else match r with
      | String b r' =>
          if isByte 194 b && isByte 160 c then 2%nat
          else match r' with
          | String a _ =>
              if isByte 225 a && isByte 154 b && isByte 128 c then 3%nat
              else if isByte 226 a && isByte 128 b
                      && (inRange 128 138 c || isByte 168 c || isByte 169 c || isByte 175 c)
              then 3%nat
              else if isByte 226 a && isByte 129 b && isByte 159 c then 3%nat
              else if isByte 227 a && isByte 128 b && isByte 128 c then 3%nat
              else if isByte 239 a && isByte 187 b && isByte 191 c then 3%nat
              else 0%nat
          | EmptyString => 0%nat
          end
      | EmptyString => 0%nat
      end
  | EmptyString => 0%nat
  end.

(** Drops the whitespace characters at the head of [s]; [skip] counts the
    bytes still to drop of the character being removed. *)
Fixpoint dropWs (len : string -> nat) (skip : nat) (s : string) : string :=
  match s with
  | EmptyString => EmptyString
  | String _ r =>
      match skip with
      | S k => dropWs len k r
      | O => match len s with
             | O => s
             | S k => dropWs len k r
             end
      end
  end.

Definition trimStart (s : string) : string := dropWs wsLen 0 s.

Definition trimEnd (s : string) : string :=
  String.rev (dropWs wsLenRev 0 (String.rev s)).

Definition trim (s : string) : string := trimStart (trimEnd s).

(** *** Case conversion

    [toUpperCase] and [toLowerCase] on the ASCII letters; other bytes are
    kept.  The result is that of the source on a string whose letters are
    ASCII ([isASCII] is enough).  On any string, it equals ["GET"] or
    ["content-type"], the two strings the source compares it with, exactly
    when the result of the source does: no character outside ASCII maps to a
    letter of these. *)
Definition upper (a : ascii) : ascii :=
  if inRange 97 122 a then chr (code a - 32) else a.

Definition lower (a : ascii) : ascii :=
  if inRange 65 90 a then chr (code a + 32) else a.

Fixpoint mapChars (f : ascii -> ascii) (s : string) : string :=
  match s with
  | EmptyString => EmptyString
  | String a r => String (f a) (mapChars f r)
  end.

Definition toUpperCase : string -> string := mapChars upper.
Definition toLowerCase : string -> string := mapChars lower.

Fixpoint isASCII (s : string) : bool :=
  match s with
  | EmptyString => true
  | String a r => (code a <? 128) && isASCII r
  end.

(** *** [encodeURIComponent]

    [String.prototype.isWellFormed]: the string holds no surrogate that is
    not part of a pair.  In the generalized encoding the byte [ED] is
    followed by a byte from [A0] on for such a surrogate only. *)
Fixpoint isWellFormed (s : string) : bool :=
  match s with
  | EmptyString => true
  | String a r =>
      match r with
      | String b _ =>
          if isByte 237 a && inRange 160 191 b then false else isWellFormed r
      | EmptyString => true
      end
  end.

(** What [encodeURIComponent] returns for a well-formed string: every byte of
    the UTF-8 encoding is written [%XX], except the unreserved characters
    [A-Z a-z 0-9 - _ . ! ~ * ' ( )].  On a string that is not well formed it
    throws [URIError]: see [encodeURIComponent] below. *)
Definition hexDigit (z : Z) : ascii :=
  if z <? 10 then chr (48 + z) else chr (55 + z).

Definition uriUnreserved (a : ascii) : bool :=
  inRange 65 90 a || inRange 97 122 a || inRange 48 57 a
  || isByte 45 a || isByte 95 a || isByte 46 a || isByte 33 a || isByte 126 a
  || isByte 42 a || isByte 39 a || isByte 40 a || isByte 41 a.

Fixpoint percentEncode (s : string) : string :=
  match s with
  | EmptyString => EmptyString
  | String a r =>
      if uriUnreserved a then String a (percentEncode r)
      else String "%" (String (hexDigit (code a / 16))
             (String (hexDigit (code a mod 16)) (percentEncode r)))
  end.

(** *** [btoa]

    [btoa] takes a string whose characters are all below U+0100 and encodes
    their values in base 64; on any other string it throws
    [InvalidCharacterError]: [btoa s] is then [None].  [latin1 s] is the
    list of those values, read from the UTF-8 bytes: one byte below 128, or
    [C2 xx] / [C3 xx]. *)
Fixpoint latin1From (pending : option Z) (s : string) : option (list Z) :=
  match s with
  | EmptyString => match pending with None => Some [] | Some _ => None end
  | String a r =>
      match pending with
      | Some hi =>
          if inRange 128 191 a
          then option_map (cons (hi + code a)) (latin1From None r)
          else None
      | None =>
          if code a <? 128 then option_map (cons (code a)) (latin1From None r)
          else if isByte 194 a then latin1From (Some 0) r
          else if isByte 195 a then latin1From (Some 64) r
          else None
      end
  end.

Definition latin1 (s : string) : option (list Z) := latin1From None s.

Definition b64Digit (z : Z) : ascii :=
  if z <? 26 then chr (65 + z)
  else if z <? 52 then chr (71 + z)
  else if z <? 62 then chr (z - 4)
  else if z =? 62 then "+"%char else "/"%char.

Fixpoint base64 (l : list Z) : string :=
  match l with
  | [] => EmptyString
  | [a] =>
      String (b64Digit (a / 4)) (String (b64Digit (a mod 4 * 16)) "==")
  | [a; b] =>
      String (b64Digit (a / 4))
        (String (b64Digit (a mod 4 * 16 + b / 16))
           (String (b64Digit (b mod 16 * 4)) "="))
  | a :: b :: c :: r =>
      String (b64Digit (a / 4))
        (String (b64Digit (a mod 4 * 16 + b / 16))
           (String (b64Digit (b mod 16 * 4 + c / 64))
              (String (b64Digit (c mod 64)) (base64 r))))
  end.

Definition btoa (s : string) : option string := option_map base64 (latin1 s).

End Js.

(** ** JavaScript numbers *)

Module Num.

Inductive number : Type :=
| Fin (z : Z)
| NaN
| PosInf
| NegInf.

(** A property that holds a number, holds [null], or is missing. *)
Inductive numField : Type :=
| Absent
| IsNull
| IsNum (n : number).

(** [String(z)] for an integer. *)
Definition ofZ (z : Z) : string := NilZero.string_of_int (Z.to_int z).

Definition toString (n : number) : string :=
  match n with
  | Fin z => ofZ z
  | NaN => "NaN"
  | PosInf => "Infinity"
  | NegInf => "-Infinity"
  end.

Definition isFinite (n : number) : bool :=
  match n with Fin _ => true | _ => false end.

(** [ToBoolean]: [0] and [NaN] are falsy. *)
Definition truthy (n : number) : bool :=
  match n with Fin z => negb (z =? 0) | NaN => false | _ => true end.

(** [n || 0]. *)
Definition orZero (n : number) : number := if truthy n then n else Fin 0.

Definition add (a b : number) : number :=
  match a, b with
  | Fin x, Fin y => Fin (x + y)
  | NaN, _ | _, NaN => NaN
  | PosInf, NegInf | NegInf, PosInf => NaN
  | PosInf, _ | _, PosInf => PosInf
  | NegInf, _ | _, NegInf => NegInf
  end.

(** [Number(v)] for a numeric property: [undefined] gives [NaN] and [null]
    gives [0]. *)
Definition Number (v : numField) : number :=
  match v with
  | Absent => NaN
  | IsNull => Fin 0
  | IsNum n => n
  end.

(** *** Quotients

    [ms / 1000] is in general not an integer: it is the double nearest to the
    quotient.  A [double] is the value [mant * 2 ^ expo]; [fdiv p q] rounds
    [p / q] to 53 significant bits, ties to even, for [0 < p] and [0 < q]
    (the binades reached here are far from the subnormal and overflow
    ranges). *)
Record double : Type := { mant : Z; expo : Z }.

Definition roundHalfEven (a b : Z) : Z :=
  let q := a / b in
  let r := a mod b in
  if 2 * r <? b then q
  else if b <? 2 * r then q + 1
  else if Z.even q then q else q + 1.

(** [2 ^ e <= p / q]. *)
Definition pow2Le (e p q : Z) : bool :=
  if 0 <=? e then 2 ^ e * q <=? p else q <=? p * 2 ^ (- e).

(** The integer part of the base-2 logarithm of [p / q]. *)
Definition binade (p q : Z) : Z :=
  let e0 := Z.log2 p - Z.log2 q in
  if pow2Le e0 p q then e0 else e0 - 1.

Definition fdiv (p q : Z) : double :=
  let s := 52 - binade p q in
  {| mant := if 0 <=? s then roundHalfEven (p * 2 ^ s) q
             else roundHalfEven p (q * 2 ^ (- s));
     expo := - s |}.

(** The double nearest to an integer [0 <= p]: [p] itself up to [2 ^ 53],
    and [p] rounded to 53 significant bits beyond.  It is the value of a
    product of two integers whose exact value is [p]. *)
Definition toDouble (p : Z) : Z :=
  let e := Z.log2 p in
  if e <? 53 then p else roundHalfEven p (2 ^ (e - 52)) * 2 ^ (e - 52).

(** [x >= k] for a double [x] and an integer [k]. *)
Definition geZ (x : double) (k : Z) : bool :=
  if 0 <=? expo x then k <=? mant x * 2 ^ expo x
  else k * 2 ^ (- expo x) <=? mant x.

(** [s.padStart(w, "0")]. *)
Definition padZeros (w : nat) (s : string) : string :=
  Nat.iter (w - String.length s) (String "0"%char) s.

(** [Number.prototype.toFixed] for [0 <= x < 1e21]: with [n] the integer
    nearest to [x * 10 ^ f] (the larger one of two), the digits of [n] with a
    point before the last [f] of them. *)
Definition nearestScaled (x : double) (f : nat) : Z :=
  let k := 10 ^ Z.of_nat f in
  if 0 <=? expo x then mant x * 2 ^ expo x * k
  else (2 * mant x * k + 2 ^ (- expo x)) / 2 ^ (1 - expo x).

Definition toFixed (x : double) (f : nat) : string :=
  let n := nearestScaled x f in
  match f with
  | O => ofZ n
  | _ => let k := 10 ^ Z.of_nat f in
         ofZ (n / k) +:+ "." +:+ padZeros f (ofZ (n mod k))
  end.

(** [String(z / 1000)] for an integer [z]: the shortest decimal that reads
    back as the quotient is the quotient written out, at most three digits
    after the point and no trailing zero (exact while [|z| < 10 ^ 15]). *)
Definition stripZeros (frac : Z) : string :=
  if frac mod 100 =? 0 then ofZ (frac / 100)
  else if frac mod 10 =? 0 then padZeros 2 (ofZ (frac / 10))
  else padZeros 3 (ofZ frac).

Definition thousandthsToString (z : Z) : string :=
  let a := Z.abs z in
  (if z <? 0 then "-" else EmptyString)
  +:+ ofZ (a / 1000)
  +:+ (if a mod 1000 =? 0 then EmptyString else "." +:+ stripZeros (a mod 1000)).

(** [String(n / 1000)]. *)
Definition div1000ToString (n : number) : string :=
  match n with
  | Fin z => thousandthsToString z
  | other => toString other
  end.

(** *** Dates

    [new Date(t).toISOString()] for a time value [t] in milliseconds since the
    epoch, in the proleptic Gregorian calendar. *)
Definition pad (w : nat) (z : Z) : string := padZeros w (ofZ z).

Definition civil (days : Z) : Z * Z * Z :=
  let z := days + 719468 in
  let era := z / 146097 in
  let doe := z - era * 146097 in
  let yoe := (doe - doe / 1460 + doe / 36524 - doe / 146096) / 365 in
  let doy := doe - (365 * yoe + yoe / 4 - yoe / 100) in
  let mp := (5 * doy + 2) / 153 in
  let d := doy - (153 * mp + 2) / 5 + 1 in
  let m := if mp <? 10 then mp + 3 else mp - 9 in
  let y := yoe + era * 400 + (if m <=? 2 then 1 else 0) in
  (y, m, d).

Definition isoYear (y : Z) : string :=
  if (0 <=? y) && (y <=? 9999) then pad 4 y
  else (if y <? 0 then "-" else "+") +:+ pad 6 (Z.abs y).

Definition toISOString (t : Z) : string :=
  let '(y, m, d) := civil (t / 86400000) in
  let ms := t mod 86400000 in
  isoYear y +:+ "-" +:+ pad 2 m +:+ "-" +:+ pad 2 d +:+ "T"
  +:+ pad 2 (ms / 3600000) +:+ ":" +:+ pad 2 (ms / 60000 mod 60) +:+ ":"
  +:+ pad 2 (ms / 1000 mod 60) +:+ "." +:+ pad 3 (ms mod 1000) +:+ "Z".

End Num.

Import Js Num.

(** ** The runtime

    What the pipeline takes from its JavaScript environment.  [JSON_parse]
    returns [None] where [JSON.parse] throws [SyntaxError]; [hasFormData] is
    [typeof FormData !== "undefined"]; [Date_toLocaleString iso] is
    [new Date(iso).toLocaleString()], which depends on the locale and the time
    zone of the browser.  The last two are the [message] of the
    [InvalidCharacterError] that [btoa] throws and of the [URIError] that
    [encodeURIComponent] throws, which each platform words its own way. *)
Class Runtime : Type := {
  JsonValue : Type;
  JSON_parse : string -> option JsonValue;
  hasFormData : bool;
  Date_toLocaleString : string -> string;
  InvalidCharacterError_message : string;
  URIError_message : string
}.

(** ** Values handed to the escaping functions *)

Inductive jsval : Type :=
| VUndefined
| VNull
| VNum (n : number)
| VStr (s : string).

(** [String(v)]. *)
Definition String_ (v : jsval) : string :=
  match v with
  | VUndefined => "undefined"
  | VNull => "null"
  | VNum n => toString n
  | VStr s => s
  end.

(** [v ?? d]. *)
Definition nullish (v d : jsval) : jsval :=
  match v with
  | VUndefined | VNull => d
  | _ => v
  end.

(** [o || d] for a string property that may be missing: a missing and an
    empty string are both falsy. *)
Definition orS (o : option string) (d : string) : string :=
  match o with
  | Some (String a r) => String a r
  | _ => d
  end.

(** [ToBoolean] of such a property. *)
Definition truthyS (o : option string) : bool :=
  match o with
  | Some (String _ _) => true
  | _ => false
  end.

(** [o === s]. *)
Definition isS (o : option string) (s : string) : bool :=
  match o with
  | Some x => String.eqb x s
  | None => false
  end.

(** [!s] for a string. *)
Definition blank (s : string) : bool :=
  match s with
  | EmptyString => true
  | _ => false
  end.

Definition ensureTrimmed (v : jsval) : jsval :=
  match v with
  | VStr s => VStr (trim s)
  | other => other
  end.

(** [ensureTrimmed] where the source applies it to a string. *)
Definition ensureTrimmedS (s : string) : string := String_ (ensureTrimmed (VStr s)).

Definition asNumber (v : numField) : option Z :=
  match Number v with
  | Fin z => Some z
  | _ => None
  end.

(** ** The data model *)

Record Pair : Type := { key : string; value : string }.

Record Auth : Type := {
  token : option string;
  username : option string;
  password : option string;
  apiKey : option string;
  apiKeyLocation : option string;
  apiKeyName : option string
}.

(** The object [{}] that stands for a missing [auth]. *)
Definition noAuth : Auth :=
  {| token := None; username := None; password := None;
     apiKey := None; apiKeyLocation := None; apiKeyName := None |}.

Record TestCase : Type := {
  id : string;
  caseName : option string;
  method : option string;
  url : option string;
  headers : option (list Pair);
  authType : option string;
  auth : option Auth;
  bodyType : option string;
  rawBody : option string;
  formData : option (list Pair);
  expectedStatus : numField;
  maxResponseTime : numField
}.

Record Outcome : Type := {
  caseId : string;
  o_caseName : option string;
  ok : bool;
  status : option Z;
  statusText : option string;
  timeMs : number;
  o_expectedStatus : option Z;
  warning : option string;
  executedAt : option string;
  error : option string
}.

(** What the HTTP client returns, and what it, the platform or the runner
    throws: an error with its [message] and, for a client error, the partial
    [response] when there is one. *)
Record Response : Type := { r_status : Z; r_statusText : string }.

Record Exn : Type := { message : string; response : option Response }.

(** How an evaluation ends: with a value, with an exception, or, for an
    awaited call, not at all ([Pending]: the promise never settles and the
    code after the [await] never runs). *)
Inductive completion (A : Type) : Type :=
| Normal (a : A)
| Throw (e : Exn)
| Pending.

Arguments Normal {A} a.
Arguments Throw {A} e.
Arguments Pending {A}.

(** [new Error(msg)]. *)
Definition Error (msg : string) : Exn := {| message := msg; response := None |}.

(** The exception of [btoa]. *)
Definition InvalidCharacterError {rt : Runtime} : Exn :=
  {| message := InvalidCharacterError_message; response := None |}.

(** The exception of [encodeURIComponent]. *)
Definition URIError {rt : Runtime} : Exn :=
  {| message := URIError_message; response := None |}.

Definition encodeURIComponent {rt : Runtime} (s : string) : completion string :=
  if isWellFormed s then Normal (percentEncode s) else Throw URIError.

(** ** The request builder *)

Section Builder.

Context {rt : Runtime}.

Inductive Body : Type :=
| Parsed (v : JsonValue)
| Text (s : string)
| Form (entries : list (string * string))
| Plain (obj : gmap string string).

Record Built : Type := {
  data : option Body;
  isFormData : bool;
  b_warning : option string
}.

Definition noBody : Built :=
  {| data := None; isFormData := false; b_warning := None |}.

(** [obj[k] = v] for a string [v] on an object created by [{}].  The name
    ["__proto__"] is that of the accessor of [Object.prototype]: its setter
    ignores a string, and the object gets no property.  Any other name
    becomes, or stays, a property of the object. *)
Definition assign (k v : string) (obj : gmap string string) : gmap string string :=
  if String.eqb k "__proto__" then obj else <[k := v]> obj.

Definition setEntry (obj : gmap string string) (p : Pair) : gmap string string :=
  if blank (key p) then obj else assign (key p) (value p) obj.

Definition appendEntry (fd : list (string * string)) (p : Pair) : list (string * string) :=
  if blank (key p) then fd else fd ++ [(key p, value p)].

Definition buildHeaders (testCase : TestCase) (isFormData : bool)
  : completion (gmap string string) :=
  let headers := foldl setEntry ∅ (default [] (headers testCase)) in
  let authType := authType testCase in
  let auth := default noAuth (auth testCase) in
  let headers :=
    if isS authType "Bearer" && truthyS (token auth)
    then assign "Authorization" ("Bearer " +:+ orS (token auth) EmptyString) headers
    else headers in
  let basic :=
    if isS authType "Basic" && truthyS (username auth) && truthyS (password auth)
    then match btoa (orS (username auth) EmptyString +:+ ":" +:+ orS (password auth) EmptyString) with
         | Some b64 => Normal (assign "Authorization" ("Basic " +:+ b64) headers)
         | None => Throw InvalidCharacterError
         end
    else Normal headers in
  match basic with
  | Throw e => Throw e
  | Pending => Pending
  | Normal headers =>
      let headers :=
        if isS authType "ApiKey" && truthyS (apiKey auth)
           && isS (apiKeyLocation auth) "header"
        then let headerName := orS (option_map trim (apiKeyName auth)) "x-api-key" in
             assign headerName (orS (apiKey auth) EmptyString) headers
        else headers in
      Normal (if isFormData
              then filter (fun kv => negb (String.eqb (toLowerCase kv.1) "content-type")) headers
              else headers)
  end.

Definition buildBody (testCase : TestCase) : Built :=
  let method := toUpperCase (orS (method testCase) "GET") in
  if String.eqb method "GET" then noBody
  else if isS (bodyType testCase) "raw" then
    let raw := ensureTrimmedS (default EmptyString (rawBody testCase)) in
    if blank raw then noBody
    else match JSON_parse raw with
         | Some v => {| data := Some (Parsed v); isFormData := false; b_warning := None |}
         | None => {| data := Some (Text (default raw (rawBody testCase)));
                      isFormData := false;
                      b_warning := Some "Raw body is not valid JSON; sending as text." |}
         end
  else if isS (bodyType testCase) "form-data" then
    let entries := default [] (formData testCase) in
    let hasEntries := existsb (fun p => negb (blank (key p))) entries in
    if negb hasEntries then noBody
    else if hasFormData
    then {| data := Some (Form (foldl appendEntry [] entries));
            isFormData := true; b_warning := None |}
    else {| data := Some (Plain (foldl setEntry ∅ entries));
            isFormData := false; b_warning := None |}
  else noBody.

End Builder.

(** ** The test runner *)

Section Runner.

Context {rt : Runtime}.

Record RequestConfig : Type := {
  rc_method : string;
  rc_url : string;
  rc_headers : gmap string string;
  rc_timeout : option Z;
  rc_data : option Body
}.

(** The state the runner acts on: the clock read by [Date.now()] and the
    requests handed to the HTTP client so far. *)
Record World : Type := { clock : Z; sent : list RequestConfig }.

(** The HTTP client and the network behind it: for a request issued in a
    given world, how long the call takes and how it ends.  The request is
    configured with [validateStatus: () => true], so a reply with any status
    code is a [Normal] response; [Throw] is a rejection of the call;
    [Pending] is a call that never settles, as one with no timeout may. *)
Record Reply : Type := { took : Z; answer : completion Response }.

Variable net : RequestConfig -> World -> Reply.

(** Computations that read the clock, call the client, and may throw. *)
Definition M (A : Type) : Type := World -> completion A * World.

Definition ret {A} (a : A) : M A := fun w => (Normal a, w).

Definition throw {A} (e : Exn) : M A := fun w => (Throw e, w).

Definition bind {A B} (m : M A) (k : A -> M B) : M B :=
  fun w => match m w with
           | (Normal a, w') => k a w'
           | (Throw e, w') => (Throw e, w')
           | (Pending, w') => (Pending, w')
           end.

Definition tryCatch {A} (m : M A) (handler : Exn -> M A) : M A :=
  fun w => match m w with
           | (Normal a, w') => (Normal a, w')
           | (Throw e, w') => handler e w'
           | (Pending, w') => (Pending, w')
           end.

Definition lift {A} (c : completion A) : M A := fun w => (c, w).

Notation "'let!' x ':=' m 'in' k" := (bind m (fun x => k))
  (at level 10, x name, m at level 100, k at level 200).

Definition Date_now : M Z := fun w => (Normal (clock w), w).

(** [new Date().toISOString()]. *)
Definition Date_nowISO : M string := fun w => (Normal (toISOString (clock w)), w).

(** [await axios(requestConfig)]. *)
Definition axios (requestConfig : RequestConfig) : M Response :=
  fun w => let reply := net requestConfig w in
           (answer reply,
            {| clock := clock w + took reply; sent := sent w ++ [requestConfig] |}).

(** The URL the request goes to: the trimmed URL, with the API key appended
    as a query parameter when the test case asks for that.  The name is
    encoded before the key, and either encoding may throw. *)
Definition finalUrlOf (testCase : TestCase) : completion string :=
  let finalUrl := ensureTrimmedS (orS (url testCase) EmptyString) in
  let authType := authType testCase in
  let auth := default noAuth (auth testCase) in
  if isS authType "ApiKey" && truthyS (apiKey auth) && isS (apiKeyLocation auth) "query"
  then
    let paramName := orS (option_map trim (apiKeyName auth)) "apiKey" in
    match encodeURIComponent paramName with
    | Normal encodedName =>
        match encodeURIComponent (orS (apiKey auth) EmptyString) with
        | Normal encodedKey =>
            let param := encodedName +:+ "=" +:+ encodedKey in
            Normal (finalUrl +:+ (if includes "?" finalUrl then "&" else "?") +:+ param)
        | Throw e => Throw e
        | Pending => Pending
        end
    | Throw e => Throw e
    | Pending => Pending
    end
  else Normal finalUrl.

(** [ok] on the path where the client returned a response. *)
Definition verdict (expectedStatus : option Z) (status : Z) : bool :=
  match expectedStatus with
  | Some expected => status =? expected
  | None => (200 <=? status) && (status <? 300)
  end.

Definition runTestCase (testCase : TestCase) : M Outcome :=
  let method := toUpperCase (orS (method testCase) "GET") in
  let finalUrl := ensureTrimmedS (orS (url testCase) EmptyString) in
  if blank finalUrl then throw (Error "Missing URL for test case.")
  else
    let! finalUrl := lift (finalUrlOf testCase) in
    let built := buildBody testCase in
    let! headers := lift (buildHeaders testCase (isFormData built)) in
    let timeoutSeconds := asNumber (maxResponseTime testCase) in
    let requestConfig :=
      {| rc_method := method;
         rc_url := finalUrl;
         rc_headers := headers;
         rc_timeout := match timeoutSeconds with
                       | Some s => if negb (s =? 0) && (0 <? s)
                                   then Some (toDouble (s * 1000)) else None
                       | None => None
                       end;
         rc_data := data built |} in
    let! start := Date_now in
    tryCatch
      (let! response := axios requestConfig in
       let! now := Date_now in
       let elapsed := now - start in
       let expectedStatus := asNumber (expectedStatus testCase) in
       let ok := verdict expectedStatus (r_status response) in
       let! stamp := Date_nowISO in
       ret {| caseId := id testCase;
              o_caseName := caseName testCase;
              ok := ok;
              status := Some (r_status response);
              statusText := Some (r_statusText response);
              timeMs := Fin elapsed;
              o_expectedStatus := expectedStatus;
              warning := b_warning built;
              executedAt := Some stamp;
              error := None |})
      (fun error =>
         let! now := Date_now in
         let elapsed := now - start in
         let! stamp := Date_nowISO in
         ret {| caseId := id testCase;
                o_caseName := caseName testCase;
                ok := false;
                status := option_map r_status (response error);
                statusText := option_map r_statusText (response error);
                timeMs := Fin elapsed;
                o_expectedStatus := asNumber (expectedStatus testCase);
                warning := b_warning built;
                executedAt := Some stamp;
                error := Some (message error) |}).

End Runner.

(** ** The JUnit report generator *)

(** [Object.fromEntries(testCases.map(tc => [tc.id, tc]))]: a later test case
    replaces an earlier one with the same id.  The map holds the properties
    of the object itself, and each id, ["__proto__"] too, becomes one. *)
Definition casesById (testCases : list TestCase) : gmap string TestCase :=
  foldl (fun obj tc => <[id tc := tc]> obj) ∅ testCases.

(** [target.f] for [target = casesById[caseId] || {}], with [f] a property of
    a test case that is a string.  For a [caseId] that no test case has,
    [casesById[caseId]] is [undefined] or, for a name such as ["constructor"]
    or ["__proto__"], a member inherited from [Object.prototype]: none of
    these has a property of a test case, and [target.f] is [undefined] as it
    is on [{}]. *)
Definition field (target : option TestCase) (f : TestCase -> option string)
  : option string :=
  match target with
  | Some tc => f tc
  | None => None
  end.

(** [n ?? d] in a template literal. *)
Definition numOr (n : option Z) (d : string) : string :=
  match n with
  | Some z => ofZ z
  | None => d
  end.

Definition escapeXml (value : jsval) : string :=
  let raw := ensureTrimmed (nullish value (VStr EmptyString)) in
  let str := String_ raw in
  replaceAll "'" "&apos;"
    (replaceAll dqc "&quot;"
       (replaceAll ">" "&gt;"
          (replaceAll "<" "&lt;"
             (replaceAll "&" "&amp;" str)))).

(** The [<failure>] element of a failing result, empty for a passing one. *)
Definition failureBlock (result : Outcome) : string :=
  if ok result then EmptyString
  else "<failure message=" +:+ dq +:+ "Expected "
       +:+ numOr (o_expectedStatus result) "2xx" +:+ ", got "
       +:+ numOr (status result) "error" +:+ dq +:+ ">"
       +:+ orS (error result) "Request failed" +:+ "</failure>".

Definition junitName (target : option TestCase) (result : Outcome) : string :=
  let fallbackName :=
    trim (orS (field target method) (orS (o_caseName result) EmptyString)
          +:+ " " +:+ orS (field target url) EmptyString) in
  orS (field target caseName)
    (orS (o_caseName result)
       (if blank fallbackName then "Unnamed Case" else fallbackName)).

Definition testCaseEntry (cases : gmap string TestCase) (result : Outcome) : string :=
  let target := cases !! caseId result in
  let name := junitName target result in
  let failureBlock := failureBlock result in
  "    <testcase classname=" +:+ dq +:+ "API" +:+ dq +:+ " name=" +:+ dq
  +:+ escapeXml (VStr name) +:+ dq +:+ " time=" +:+ dq
  +:+ div1000ToString (orZero (timeMs result)) +:+ dq +:+ ">" +:+ nl
  +:+ (if blank failureBlock then EmptyString
       else "      " +:+ failureBlock +:+ nl)
  +:+ "    </testcase>".

(** The document up to and including the opening tag of the test suite. *)
Definition junitOpening (total failures : nat) : string :=
  "<?xml version=" +:+ dq +:+ "1.0" +:+ dq +:+ " encoding=" +:+ dq +:+ "UTF-8"
  +:+ dq +:+ "?>" +:+ nl +:+ "<testsuite name=" +:+ dq +:+ "API Tests" +:+ dq
  +:+ " tests=" +:+ dq +:+ ofZ (Z.of_nat total) +:+ dq
  +:+ " failures=" +:+ dq +:+ ofZ (Z.of_nat failures) +:+ dq +:+ ">" +:+ nl.

Definition generateJUnitReport (testCases : list TestCase) (results : list Outcome)
  : string :=
  let total := length testCases in
  let failures := length (List.filter (fun r => negb (ok r)) results) in
  let casesById := casesById testCases in
  let testCaseEntries := join nl (map (testCaseEntry casesById) results) in
  junitOpening total failures +:+ testCaseEntries +:+ nl +:+ "</testsuite>".

(** ** The Allure HTML preview generator *)

Section Preview.

Context {rt : Runtime}.

Definition formatDuration (ms : number) : string :=
  match ms with
  | Fin z =>
      if 1000 <=? z then
        let seconds := fdiv z 1000 in
        toFixed seconds (if geZ seconds 10 then 0 else 2) +:+ " s"
      else ofZ z +:+ " ms"
  | _ => "-"
  end.

Definition formatDateTime (iso : option string) : string :=
  if negb (truthyS iso) then "-" else Date_toLocaleString (orS iso EmptyString).

(** A string property handed to [escapeHtml]. *)
Definition ofOpt (o : option string) : jsval :=
  match o with
  | Some s => VStr s
  | None => VUndefined
  end.

Definition escapeHtml (value : jsval) : string :=
  let raw := ensureTrimmed (nullish value (VStr EmptyString)) in
  let str := String_ raw in
  replaceAll "'" "&#39;"
    (replaceAll dqc "&quot;"
       (replaceAll ">" "&gt;"
          (replaceAll "<" "&lt;"
             (replaceAll "&" "&amp;" str)))).

(** The four filter buttons, each a [(key, label)]. *)
Definition filterButtons (total passed failed warnings : nat) : list (string * string) :=
  [ ("all", "All (" +:+ ofZ (Z.of_nat total) +:+ ")");
    ("passed", "Passed (" +:+ ofZ (Z.of_nat passed) +:+ ")");
    ("failed", "Failed (" +:+ ofZ (Z.of_nat failed) +:+ ")");
    ("warning", "Warnings (" +:+ ofZ (Z.of_nat warnings) +:+ ")") ].

Definition filterControls (total passed failed warnings : nat) : string :=
  join EmptyString
    (imap (fun index btn =>
      "
        <button class=" +:+ dq +:+ "filter"
      +:+ (if Nat.eqb index 0 then " is-active" else EmptyString)
      +:+ dq +:+ " data-filter=" +:+ dq
      +:+ btn.1
      +:+ dq +:+ ">
          "
      +:+ escapeHtml (VStr btn.2)
      +:+ "
        </button>
      ")
       (filterButtons total passed failed warnings)).

Definition caseCard (cases : gmap string TestCase) (idx : nat) (result : Outcome)
  : string :=
  let target := cases !! caseId result in
  let method := orS (field target method) "GET" in
  let url := orS (field target url) EmptyString in
  let fallbackName := trim (method +:+ " " +:+ url) in
  let name :=
    orS (field target caseName)
      (orS (o_caseName result)
         (if blank fallbackName then "Case #" +:+ ofZ (Z.of_nat idx + 1)
          else fallbackName)) in
  let statusClass := if ok result then "case--passed" else "case--failed" in
  let statusLabel := if ok result then "Passed" else "Failed" in
  let expected := match o_expectedStatus result with
                  | Some z => VNum (Fin z)
                  | None => VStr "‚Äî"
                  end in
  let actual := match status result with
                | Some z => VNum (Fin z)
                | None => VStr "‚Äî"
                end in
  let executed := formatDateTime (executedAt result) in
  let warningBlock :=
    if truthyS (warning result)
    then "<div class=" +:+ dq +:+ "case__alert case__alert--warning" +:+ dq +:+ ">‚ö†Ô∏è "
       +:+ escapeHtml (ofOpt (warning result))
       +:+ "</div>"
    else EmptyString in
  let errorBlock :=
    if truthyS (error result)
    then "<div class=" +:+ dq +:+ "case__alert case__alert--error" +:+ dq +:+ ">üî• "
       +:+ escapeHtml (ofOpt (error result))
       +:+ "</div>"
    else EmptyString in
  "
      <article class=" +:+ dq +:+ "case "
  +:+ statusClass
  +:+ dq +:+ " data-status=" +:+ dq
  +:+ (if ok result then "passed" else "failed")
  +:+ dq +:+ " data-warning=" +:+ dq
  +:+ (if truthyS (warning result) then "true" else "false")
  +:+ dq +:+ ">
        <header class=" +:+ dq +:+ "case__header" +:+ dq +:+ ">
          <span class=" +:+ dq +:+ "case__status" +:+ dq +:+ ">"
  +:+ statusLabel
  +:+ "</span>
          <h2 class=" +:+ dq +:+ "case__name" +:+ dq +:+ ">"
  +:+ escapeHtml (VStr name)
  +:+ "</h2>
        </header>
        <div class=" +:+ dq +:+ "case__meta" +:+ dq +:+ ">
          <span>"
  +:+ escapeHtml (VStr method)
  +:+ "</span>
          <span>Expected "
  +:+ escapeHtml expected
  +:+ "</span>
          <span>Actual "
  +:+ escapeHtml actual
  +:+ "</span>
          <span>"
  +:+ escapeHtml (VStr (formatDuration (timeMs result)))
  +:+ "</span>
        </div>
        <div class=" +:+ dq +:+ "case__url" +:+ dq +:+ ">"
  +:+ escapeHtml (VStr url)
  +:+ "</div>
        <div class=" +:+ dq +:+ "case__timeline" +:+ dq +:+ ">Ran at "
  +:+ escapeHtml (VStr executed)
  +:+ "</div>
        "
  +:+ warningBlock
  +:+ "
        "
  +:+ errorBlock
  +:+ "
      </article>
    ".

(** The document before the time of generation: the head, the style sheet and
    the title. *)
Definition pageHead : string :=
  "<!DOCTYPE html>
  <html lang=" +:+ dq +:+ "en" +:+ dq +:+ ">
    <head>
      <meta charset=" +:+ dq +:+ "UTF-8" +:+ dq +:+ " />
      <title>Allure Report Preview</title>
      <meta name=" +:+ dq +:+ "viewport" +:+ dq +:+ " content=" +:+ dq +:+ "width=device-width, initial-scale=1" +:+ dq +:+ " />
      <style>
        body { font-family: 'Inter', 'Segoe UI', system-ui, -apple-system, sans-serif; margin: 0; background: linear-gradient(135deg, #0f172a 0%, #111827 100%); color: #e2e8f0; }
        .shell { max-width: 1100px; margin: 0 auto; padding: 3rem 1.5rem 4rem; }
        .header { margin-bottom: 2.5rem; }
        .header h1 { margin: 0 0 0.5rem; font-size: clamp(1.8rem, 2vw + 1.2rem, 2.8rem); letter-spacing: 0.05em; text-transform: uppercase; color: #38bdf8; }
        .header p { margin: 0; font-size: 0.95rem; color: rgba(226, 232, 240, 0.75); }
        .summary { display: grid; gap: 1rem; grid-template-columns: repeat(auto-fit, minmax(160px, 1fr)); margin-bottom: 2rem; }
        .card { background: rgba(15, 23, 42, 0.8); border: 1px solid rgba(56, 189, 248, 0.25); border-radius: 16px; padding: 1.25rem; box-shadow: 0 20px 50px rgba(15, 23, 42, 0.45); }
        .card h3 { margin: 0 0 0.4rem; font-size: 0.85rem; letter-spacing: 0.08em; text-transform: uppercase; color: rgba(148, 163, 184, 0.9); }
        .card span { font-size: 1.9rem; font-weight: 700; }
        .card--pass span { color: #4ade80; }
        .card--fail span { color: #f87171; }
        .card--warn span { color: #facc15; }
        .filters { display: flex; flex-wrap: wrap; gap: 0.75rem; margin-bottom: 2rem; }
        .filter { border: 1px solid rgba(148, 163, 184, 0.4); background: rgba(15, 23, 42, 0.7); color: #f1f5f9; border-radius: 999px; padding: 0.5rem 1rem; cursor: pointer; font-weight: 600; letter-spacing: 0.04em; text-transform: uppercase; transition: all 0.18s ease; }
        .filter:hover { border-color: rgba(56, 189, 248, 0.8); color: #38bdf8; }
        .filter.is-active { background: #38bdf8; color: #0f172a; box-shadow: 0 12px 30px rgba(56, 189, 248, 0.35); }
        .cases { display: grid; gap: 1.25rem; }
        .case { background: rgba(15, 23, 42, 0.85); border-radius: 18px; padding: 1.5rem; border: 1px solid transparent; box-shadow: 0 25px 40px rgba(15, 23, 42, 0.45); transition: transform 0.18s ease, border-color 0.18s ease; }
        .case:hover { transform: translateY(-4px); border-color: rgba(56, 189, 248, 0.5); }
        .case--passed { border-color: rgba(74, 222, 128, 0.35); }
        .case--failed { border-color: rgba(248, 113, 113, 0.4); }
        .case__header { display: flex; flex-wrap: wrap; align-items: center; gap: 0.75rem; margin-bottom: 0.6rem; }
        .case__status { padding: 0.25rem 0.75rem; border-radius: 999px; font-size: 0.75rem; letter-spacing: 0.08em; text-transform: uppercase; background: rgba(56, 189, 248, 0.18); color: #38bdf8; }
        .case--passed .case__status { background: rgba(74, 222, 128, 0.2); color: #4ade80; }
        .case--failed .case__status { background: rgba(248, 113, 113, 0.2); color: #f87171; }
        .case__name { margin: 0; font-size: 1.25rem; color: #f8fafc; }
        .case__meta { display: flex; flex-wrap: wrap; gap: 0.75rem; font-size: 0.8rem; color: rgba(148, 163, 184, 0.85); margin-bottom: 0.8rem; }
        .case__url { font-family: " +:+ dq +:+ "SFMono-Regular" +:+ dq +:+ ", Consolas, " +:+ dq +:+ "Liberation Mono" +:+ dq +:+ ", Menlo, monospace; font-size: 0.85rem; color: #38bdf8; margin-bottom: 0.75rem; word-break: break-all; }
        .case__timeline { font-size: 0.78rem; color: rgba(226, 232, 240, 0.65); margin-bottom: 0.65rem; }
        .case__alert { padding: 0.6rem 0.8rem; border-radius: 12px; font-size: 0.82rem; margin-top: 0.5rem; }
        .case__alert--warning { background: rgba(251, 191, 36, 0.18); color: #facc15; border: 1px solid rgba(251, 191, 36, 0.3); }
        .case__alert--error { background: rgba(248, 113, 113, 0.2); color: #f87171; border: 1px solid rgba(248, 113, 113, 0.35); }
        .empty { border: 1px dashed rgba(148, 163, 184, 0.4); border-radius: 16px; padding: 2.5rem 1.5rem; text-align: center; color: rgba(226, 232, 240, 0.65); }
        footer { margin-top: 3rem; font-size: 0.75rem; color: rgba(148, 163, 184, 0.55); text-align: center; }
        @media (max-width: 720px) {
          .shell { padding: 2.5rem 1.1rem 3rem; }
          .cases { gap: 1rem; }
        }
      </style>
    </head>
    <body>
      <div class=" +:+ dq +:+ "shell" +:+ dq +:+ ">
        <header class=" +:+ dq +:+ "header" +:+ dq +:+ ">
          <h1>Allure Report Preview</h1>
          <p>Generated ".

(** The document after the case cards: the footer and the filter script. *)
Definition pageTail : string :=
  "
        </section>
        <footer>
          Preview generated in the browser. Exported Allure results are available in the downloaded ZIP.
        </footer>
      </div>
      <script>
        (function() {
          const buttons = Array.from(document.querySelectorAll('.filter'));
          const cards = Array.from(document.querySelectorAll('.case'));
          const applyFilter = key => {
            buttons.forEach(btn => btn.classList.toggle('is-active', btn.dataset.filter === key));
            cards.forEach(card => {
              if (!card) return;
              const status = card.dataset.status;
              const warning = card.dataset.warning === 'true';
              let show = true;
              if (key === 'passed') show = status === 'passed';
              if (key === 'failed') show = status === 'failed';
              if (key === 'warning') show = warning;
              card.style.display = show ? '' : 'none';
            });
          };
          buttons.forEach(btn => btn.addEventListener('click', () => applyFilter(btn.dataset.filter)));
          applyFilter('all');
        })();
      </script>
    </body>
  </html>".

(** The document between the time of generation and the end of the case
    cards. *)
Definition pageBody (testCases : list TestCase) (results : list Outcome) : string :=
  let casesById := casesById testCases in
  let total := length results in
  let passed := length (List.filter ok results) in
  let failed := (total - passed)%nat in
  let warnings := length (List.filter (fun r => truthyS (warning r)) results) in
  let totalDuration :=
    foldl (fun acc res => add acc (orZero (timeMs res))) (Fin 0) results in
  let caseCards := join EmptyString (imap (caseCard casesById) results) in
  let casesSection :=
    if blank caseCards then "<div class=" +:+ dq +:+ "empty" +:+ dq +:+ ">No test cases were executed.</div>" else caseCards in
  " ¬∑ Total duration "
  +:+ escapeHtml (VStr (formatDuration totalDuration))
  +:+ "</p>
        </header>
        <section class=" +:+ dq +:+ "summary" +:+ dq +:+ ">
          <div class=" +:+ dq +:+ "card" +:+ dq +:+ ">
            <h3>Total</h3>
            <span>"
  +:+ escapeHtml (VStr (ofZ (Z.of_nat total)))
  +:+ "</span>
          </div>
          <div class=" +:+ dq +:+ "card card--pass" +:+ dq +:+ ">
            <h3>Passed</h3>
            <span>"
  +:+ escapeHtml (VStr (ofZ (Z.of_nat passed)))
  +:+ "</span>
          </div>
          <div class=" +:+ dq +:+ "card card--fail" +:+ dq +:+ ">
            <h3>Failed</h3>
            <span>"
  +:+ escapeHtml (VStr (ofZ (Z.of_nat failed)))
  +:+ "</span>
          </div>
          <div class=" +:+ dq +:+ "card card--warn" +:+ dq +:+ ">
            <h3>Warnings</h3>
            <span>"
  +:+ escapeHtml (VStr (ofZ (Z.of_nat warnings)))
  +:+ "</span>
          </div>
        </section>
        <div class=" +:+ dq +:+ "filters" +:+ dq +:+ ">
          "
  +:+ filterControls total passed failed warnings
  +:+ "
        </div>
        <section class=" +:+ dq +:+ "cases" +:+ dq +:+ ">
          "
  +:+ casesSection.

Record Meta : Type := { m_executedAt : option string }.

(** [now] is the time value [new Date()] would give at the call. *)
Definition generateAllureHtml (now : Z) (testCases : list TestCase)
  (results : list Outcome) (meta : Meta) : string :=
  let executedAt := orS (m_executedAt meta) (toISOString now) in
  let executedDisplay := formatDateTime (Some executedAt) in
  pageHead +:+ escapeHtml (VStr executedDisplay)
  +:+ pageBody testCases results +:+ pageTail.

End Preview.

(** ** The Allure archive generator

    The archive is modelled by the files written to its [allure-results]
    folder, in the order they are written, each with its name and its text;
    the packing of the folder into a zip blob is left to the library.  A
    later file of the same name would replace an earlier one. *)

(** The values handed to [JSON.stringify]: a property whose value is
    [undefined] is not written, so an object lists the properties that
    are. *)
#[warnings="-register-all"]
Inductive json : Type :=
| JNum (n : number)
| JStr (s : string)
| JArr (items : list json)
| JObj (fields : list (string * json)).

(** Replaces each character of a string by a string. *)
Fixpoint subst (f : ascii -> string) (s : string) : string :=
  match s with
  | EmptyString => EmptyString
  | String a r => f a +:+ subst f r
  end.

(** [QuoteJSONString]: the double quote and the backslash are escaped, the
    control characters are written [\b], [\t], [\n], [\f], [\r] or [\u00xx],
    and a surrogate that is not part of a pair is written [\udxxx]. *)
Definition backslash : ascii := "092"%char.

Definition lowerHex (z : Z) : ascii :=
  if z <? 10 then chr (48 + z) else chr (87 + z).

Definition quoteChar (a : ascii) : string :=
  if Ascii.eqb a dqc then String backslash dq
  else if Ascii.eqb a backslash then String backslash (String backslash EmptyString)
  else if isByte 8 a then String backslash "b"
  else if isByte 9 a then String backslash "t"
  else if isByte 10 a then String backslash "n"
  else if isByte 12 a then String backslash "f"
  else if isByte 13 a then String backslash "r"
  else if code a <? 32
  then String backslash ("u00" +:+ String (lowerHex (code a / 16))
                                   (String (lowerHex (code a mod 16)) EmptyString))
  else String a EmptyString.

(** The escape of the surrogate held as [ED b c]. *)
Definition quoteSurrogate (b c : ascii) : string :=
  String backslash
    ("ud" +:+ String (lowerHex (8 + (code b - 160) / 4))
                (String (lowerHex ((code b - 160) mod 4 * 4 + (code c - 128) / 16))
                   (String (lowerHex ((code c - 128) mod 16)) EmptyString))).

Fixpoint quoteChars (s : string) : string :=
  match s with
  | EmptyString => EmptyString
  | String a r =>
      match r with
      | String b (String c r') =>
          if isByte 237 a && inRange 160 191 b
          then quoteSurrogate b c +:+ quoteChars r'
          else quoteChar a +:+ quoteChars r
      | _ => quoteChar a +:+ quoteChars r
      end
  end.

Definition quote (s : string) : string := dq +:+ quoteChars s +:+ dq.

(** [JSON.stringify(v, null, 2)], with [indent] the indentation of the line
    the value starts on. *)
Fixpoint stringify (indent : string) (v : json) : string :=
  let inner := indent +:+ "  " in
  match v with
  | JNum n => if isFinite n then toString n else "null"
  | JStr s => quote s
  | JArr [] => "[]"
  | JArr items =>
      "[" +:+ nl +:+ inner
      +:+ join ("," +:+ nl +:+ inner) (map (stringify inner) items)
      +:+ nl +:+ indent +:+ "]"
  | JObj [] => "{}"
  | JObj fields =>
      "{" +:+ nl +:+ inner
      +:+ join ("," +:+ nl +:+ inner)
            (map (fun kv => quote (fst kv) +:+ ": " +:+ stringify inner (snd kv)) fields)
      +:+ nl +:+ indent +:+ "}"
  end.

(** A property that is written when it has a value. *)
Definition optional (k : string) (v : option json) : list (string * json) :=
  match v with
  | Some x => [(k, x)]
  | None => []
  end.

(** [o || undefined] for a string property. *)
Definition strOrUndefined (o : option string) : option json :=
  if truthyS o then Some (JStr (orS o EmptyString)) else None.

Definition negate (n : number) : number :=
  match n with
  | Fin z => Fin (- z)
  | NaN => NaN
  | PosInf => NegInf
  | NegInf => PosInf
  end.

(** [a - b]. *)
Definition sub (a b : number) : number := add a (negate b).

Record Options : Type := {
  executorName : option string;
  buildOrder : option Z;
  reportName : option string;
  reportUrl : option string;
  buildUrl : option string
}.

(** The options of a call that passes none. *)
Definition noOptions : Options :=
  {| executorName := None; buildOrder := None; reportName := None;
     reportUrl := None; buildUrl := None |}.

Definition executor (now : Z) (options : Options) : json :=
  JObj ([ ("name", JStr (orS (executorName options) "Browser Runner"));
          ("type", JStr "browser") ]
        ++ optional "buildOrder" (option_map (fun z => JNum (Fin z)) (buildOrder options))
        ++ [ ("reportName",
              JStr (orS (reportName options) ("API Suite " +:+ toISOString now))) ]
        ++ optional "reportUrl" (strOrUndefined (reportUrl options))
        ++ optional "buildUrl" (strOrUndefined (buildUrl options))).

(** [relatedCase.id] for [relatedCase = casesById[caseId] || {}]; it is
    [undefined] on a member inherited from [Object.prototype] too. *)
Definition relatedId (relatedCase : option TestCase) : option string :=
  option_map id relatedCase.

(** The message of a result with no better one. *)
Definition expectation (result : Outcome) : string :=
  "Expected " +:+ numOr (o_expectedStatus result) "2xx" +:+ ", got "
  +:+ numOr (status result) "error".

Definition statusDetails (result : Outcome) : option json :=
  if negb (ok result)
  then Some (JObj ([ ("message", JStr (orS (error result) (expectation result))) ]
                   ++ optional "trace" (strOrUndefined (warning result))))
  else if truthyS (warning result)
  then Some (JObj [ ("message", JStr (orS (warning result) EmptyString)) ])
  else None.

(** The result object of one outcome: [now] is the time of the run and
    [uuid] the identifier drawn for the outcome. *)
Definition allureResult (cases : gmap string TestCase) (now : Z) (uuid : string)
  (result : Outcome) : json :=
  let relatedCase := cases !! caseId result in
  let method := orS (field relatedCase method) "GET" in
  let url := orS (field relatedCase url) EmptyString in
  let title := trim (method +:+ " " +:+ url) in
  let name :=
    orS (field relatedCase caseName)
      (orS (o_caseName result) (if blank title then "Unnamed Case" else title)) in
  let start := sub (Fin now) (orZero (timeMs result)) in
  let stop := Fin now in
  let status := if ok result then "passed" else "failed" in
  let historyId := orS (relatedId relatedCase) (orS (Some (caseId result)) uuid) in
  let parameters :=
    [ JObj [("name", JStr "method"); ("value", JStr method)];
      JObj [("name", JStr "url"); ("value", JStr url)] ]
    ++ match o_expectedStatus result with
       | Some z => [ JObj [("name", JStr "expectedStatus"); ("value", JStr (ofZ z))] ]
       | None => []
       end in
  JObj ([ ("uuid", JStr uuid);
          ("historyId", JStr historyId);
          ("name", JStr name);
          ("fullName", JStr (if blank title then name else title));
          ("status", JStr status);
          ("stage", JStr "finished") ]
        ++ optional "statusDetails" (statusDetails result)
        ++ [ ("start", JNum start);
             ("stop", JNum stop);
             ("time", JNum (orZero (timeMs result)));
             ("labels", JArr [ JObj [("name", JStr "suite"); ("value", JStr "API")];
                               JObj [("name", JStr "framework"); ("value", JStr "axios")] ]);
             ("parameters", JArr parameters);
             ("steps", JArr []);
             ("attachments", JArr []);
             ("links", JArr []) ]).

(** [uuidv4 n] is the identifier the [n]-th call of [uuidv4()] returns and
    [now] the time value of [new Date()] at the call. *)
Definition generateAllureArchive (uuidv4 : nat -> string) (now : Z)
  (testCases : list TestCase) (results : list Outcome) (options : Options)
  : list (string * string) :=
  let casesById := casesById testCases in
  ("executor.json", stringify EmptyString (executor now options))
  :: imap (fun n result =>
             (uuidv4 n +:+ "-result.json",
              stringify EmptyString (allureResult casesById now (uuidv4 n) result)))
       results.

(** ** Running all the test cases

    The application runs the saved test cases one after the other, records
    the outcome of each, attaches it to the test case as its last run, and
    builds the reports.  The windows and the downloads it then opens are not
    modelled. *)

Record LastRun : Type := {
  l_ok : bool;
  l_status : option Z;
  l_statusText : option string;
  l_timeMs : number;
  l_executedAt : option string;
  l_expectedStatus : option Z;
  l_warning : option string;
  l_error : option string
}.

(** [o || null] for a string property. *)
Definition strOrNull (o : option string) : option string :=
  if truthyS o then o else None.

Definition lastRunOf (match_ : Outcome) : LastRun :=
  {| l_ok := ok match_;
     l_status := status match_;
     l_statusText := statusText match_;
     l_timeMs := timeMs match_;
     l_executedAt := executedAt match_;
     l_expectedStatus := o_expectedStatus match_;
     l_warning := strOrNull (warning match_);
     l_error := strOrNull (error match_) |}.

(** A test case with the [lastRun] attached to it, if any. *)
Definition withLastRun (results : list Outcome) (tc : TestCase)
  : TestCase * option LastRun :=
  match List.find (fun res => String.eqb (caseId res) (id tc)) results with
  | Some match_ => (tc, Some (lastRunOf match_))
  | None => (tc, None)
  end.

(** The outcome recorded for a test case whose run threw. *)
Definition thrownOutcome (testCase : TestCase) (stamp : string) (error : Exn) : Outcome :=
  {| caseId := id testCase;
     o_caseName := caseName testCase;
     ok := false;
     status := None;
     statusText := Some "Request Failed";
     timeMs := Fin 0;
     o_expectedStatus := None;
     warning := None;
     executedAt := Some stamp;
     error := Some (orS (Some (message error)) "Unexpected error") |}.

Section Batch.

Context {rt : Runtime}.

Variable net : RequestConfig -> World -> Reply.

(** The loop over the test cases: [results] holds the outcomes pushed so
    far. *)
Fixpoint runEach (testCases : list TestCase) (results : list Outcome)
  : M (list Outcome) :=
  match testCases with
  | [] => ret results
  | testCase :: rest =>
      bind (tryCatch (runTestCase net testCase)
              (fun error =>
                 bind Date_nowISO (fun stamp =>
                 ret (thrownOutcome testCase stamp error))))
        (fun result => runEach rest (results ++ [result]))
  end.

Record Run : Type := {
  run_results : list Outcome;
  run_testCases : list (TestCase * option LastRun);
  run_executedAt : string;
  run_html : string;
  run_xml : string
}.

(** [runAllTestCases], with [isRunning] the flag of a run in progress; it
    does nothing, [None], when there is no test case or a run is in
    progress.  The saved list that the last runs are attached to is taken to
    be the list the run started from: no edit of the list during the run is
    modelled. *)
Definition runAllTestCases (isRunning : bool) (testCases : list TestCase)
  : M (option Run) :=
  if Nat.eqb (length testCases) 0 || isRunning then ret None
  else
    bind (runEach testCases []) (fun results =>
    bind Date_nowISO (fun summaryExecutedAt =>
    bind Date_now (fun now =>
    ret (Some {| run_results := results;
                 run_testCases := map (withLastRun results) testCases;
                 run_executedAt := summaryExecutedAt;
                 run_html := generateAllureHtml now testCases results
                               {| m_executedAt := Some summaryExecutedAt |};
                 run_xml := generateJUnitReport testCases results |})))).

End Batch.

(** ** Example inputs

    A runtime for examples: [JSON.parse] restricted to the three literal
    names, a browser that has [FormData], a locale that prints a date as
    its ISO string, and the wording of the errors of one browser. *)

Inductive Literal : Type := LNull | LTrue | LFalse.

Definition parseLiteral (s : string) : option Literal :=
  if String.eqb s "null" then Some LNull
  else if String.eqb s "true" then Some LTrue
  else if String.eqb s "false" then Some LFalse
  else None.

Definition literalRuntime : Runtime :=
  {| JsonValue := Literal;
     JSON_parse := parseLiteral;
     hasFormData := true;
     Date_toLocaleString := fun iso => iso;
     InvalidCharacterError_message :=
       "The string to be encoded contains characters outside of the Latin1 range.";
     URIError_message := "URI malformed" |}.

(** The same runtime outside a browser: there is no [FormData]. *)
Definition scriptRuntime : Runtime :=
  {| JsonValue := Literal;
     JSON_parse := parseLiteral;
     hasFormData := false;
     Date_toLocaleString := fun iso => iso;
     InvalidCharacterError_message := "Invalid character";
     URIError_message := "URI malformed" |}.

Definition plainCase (m u : string) (expected : numField) : TestCase :=
  {| id := "case-1"; caseName := Some "Example"; method := Some m; url := Some u;
     headers := None; authType := Some "None"; auth := None;
     bodyType := Some "raw"; rawBody := None; formData := None;
     expectedStatus := expected; maxResponseTime := IsNull |}.

Definition withRawBody (tc : TestCase) (text : string) : TestCase :=
  {| id := id tc; caseName := caseName tc; method := method tc; url := url tc;
     headers := headers tc; authType := authType tc; auth := auth tc;
     bodyType := Some "raw"; rawBody := Some text; formData := formData tc;
     expectedStatus := expectedStatus tc; maxResponseTime := maxResponseTime tc |}.

Definition withAuth (tc : TestCase) (kind : string) (a : Auth) : TestCase :=
  {| id := id tc; caseName := caseName tc; method := method tc; url := url tc;
     headers := headers tc; authType := Some kind; auth := Some a;
     bodyType := bodyType tc; rawBody := rawBody tc; formData := formData tc;
     expectedStatus := expectedStatus tc; maxResponseTime := maxResponseTime tc |}.

Definition withTimeout (tc : TestCase) (seconds : numField) : TestCase :=
  {| id := id tc; caseName := caseName tc; method := method tc; url := url tc;
     headers := headers tc; authType := authType tc; auth := auth tc;
     bodyType := bodyType tc; rawBody := rawBody tc; formData := formData tc;
     expectedStatus := expectedStatus tc; maxResponseTime := seconds |}.

Definition world0 : World (rt := literalRuntime) :=
  {| clock := 1700000000000; sent := [] |}.

(** A network that answers every request the same way. *)
Definition replyWith (ms : Z) (c : completion Response)
  : RequestConfig (rt := literalRuntime) -> World (rt := literalRuntime) -> Reply :=
  fun _ _ => {| took := ms; answer := c |}.

Definition okResponse : Response := {| r_status := 200; r_statusText := "OK" |}.

(** A client error that carries the response received before the failure. *)
Definition abortedWithResponse : Exn :=
  {| message := "stream has been aborted"; response := Some okResponse |}.

Definition apiKeyAuth (name key : string) : Auth :=
  {| token := None; username := None; password := None;
     apiKey := Some key; apiKeyLocation := Some "query"; apiKeyName := Some name |}.

Definition basicAuth (user pass : string) : Auth :=
  {| token := None; username := Some user; password := Some pass;
     apiKey := None; apiKeyLocation := None; apiKeyName := None |}.

(** The outcome of a GET that expects 200 and is answered 200 after 35 ms. *)
Definition passedOutcome : Outcome :=
  {| caseId := "case-1"; o_caseName := Some "Example"; ok := true;
     status := Some 200; statusText := Some "OK"; timeMs := Fin 35;
     o_expectedStatus := Some 200; warning := None;
     executedAt := Some "2023-11-14T22:13:20.035Z"; error := None |}.

(** Scenario D of the specification. *)
Definition scenarioD (name : string) : TestCase :=
  withAuth (plainCase "GET" "https://x.com/y?z=1" (IsNum (Fin 200)))
    "ApiKey" (apiKeyAuth name "abc").

(** A failed outcome with no response: the client threw [msg]. *)
Definition failedOutcome (name msg : string) : Outcome :=
  {| caseId := "case-1"; o_caseName := Some name; ok := false;
     status := None; statusText := None; timeMs := Fin 12;
     o_expectedStatus := Some 200; warning := None;
     executedAt := Some "2023-11-14T22:13:20.012Z"; error := Some msg |}.

(** A POST with a form body and two explicit headers, one of them the
    content type, given twice; a header and a field are named
    ["__proto__"]. *)
Definition formCase : TestCase :=
  {| id := "case-2"; caseName := Some "Upload"; method := Some "post";
     url := Some "https://api.example.com/upload";
     headers := Some [ {| key := "content-type"; value := "text/plain" |};
                       {| key := EmptyString; value := "ignored" |};
                       {| key := "Accept"; value := "*/*" |};
                       {| key := "Content-Type"; value := "application/json" |};
                       {| key := "__proto__"; value := "not a header" |};
                       {| key := "Accept"; value := "application/json" |} ];
     authType := Some "None"; auth := None;
     bodyType := Some "form-data"; rawBody := None;
     formData := Some [ {| key := "name"; value := "report" |};
                        {| key := EmptyString; value := "dropped" |};
                        {| key := "__proto__"; value := "a field" |};
                        {| key := "name"; value := "copy" |} ];
     expectedStatus := IsNum (Fin 201); maxResponseTime := IsNum (Fin 5) |}.

Definition bearerAuth (tok : string) : Auth :=
  {| token := Some tok; username := None; password := None;
     apiKey := None; apiKeyLocation := None; apiKeyName := None |}.


(** The bytes of the character U+[c], for [c] below 0x10000. *)
Definition utf8 (c : Z) : string :=
  if c <? 128 then String (chr c) EmptyString
  else if c <? 2048
  then String (chr (192 + c / 64)) (String (chr (128 + c mod 64)) EmptyString)
  else String (chr (224 + c / 4096))
         (String (chr (128 + c / 64 mod 64)) (String (chr (128 + c mod 64)) EmptyString)).

(** The white space characters and the line terminators of the language. *)
Definition whiteSpace : list string :=
  map utf8 [ 9; 10; 11; 12; 13; 32; 160; 5760; 8192; 8193; 8194; 8195; 8196; 8197;
             8198; 8199; 8200; 8201; 8202; 8232; 8233; 8239; 8287; 12288; 65279 ].

(** The no-break space U+00A0 and the byte order mark U+FEFF: [trim]
    removes both, and [JSON.parse] takes neither for white space. *)
Definition nbsp : string := utf8 160.

Definition bom : string := utf8 65279.

(** The surrogate U+D800 on its own. *)
Definition loneSurrogate : string := utf8 55296.

(** A network that never settles the call to one URL and answers any other
    request with 200 after 35 ms. *)
Definition hangsOn (u : string)
  : RequestConfig (rt := literalRuntime) -> World (rt := literalRuntime) -> Reply :=
  fun cfg _ =>
    {| took := 35;
       answer := if String.eqb (rc_url cfg) u then Pending else Normal okResponse |}.

(** ** The vocabulary of the claims *)

(** The criterion of the specification, read on the fields of an outcome:
    an expected status is set and the observed status equals it, or none is
    set and the observed status is in 200..299. *)
Definition meetsExpectation (o : Outcome) : Prop :=
  (exists expected, o_expectedStatus o = Some expected /\ status o = Some expected)
  \/ (o_expectedStatus o = None
      /\ exists s, status o = Some s /\ 200 <= s < 300).

(** The name of the query parameter: [apiKeyName] trimmed, ["apiKey"] when it
    is unset or blank. *)
Definition queryKeyName (a : Auth) : string :=
  match apiKeyName a with
  | Some n => if blank (trim n) then "apiKey" else trim n
  | None => "apiKey"
  end.

(** The final URL as C6 words it: the name of the parameter is [apiKeyName]
    as given, ["apiKey"] when it is unset or blank; the URL is taken
    trimmed. *)
Definition claimedFinalUrl (tc : TestCase) : string :=
  let a := default noAuth (auth tc) in
  let base := trim (orS (url tc) EmptyString) in
  let name := match apiKeyName a with
              | Some n => if blank (trim n) then "apiKey" else n
              | None => "apiKey"
              end in
  if isS (authType tc) "ApiKey" && truthyS (apiKey a) && isS (apiKeyLocation a) "query"
  then base +:+ (if includes "?" base then "&" else "?")
       +:+ percentEncode name +:+ "=" +:+ percentEncode (orS (apiKey a) EmptyString)
  else base.

(** How the outcome of a call stands to the reply of the client, with
    [expected] the expected status of the test case. *)
Definition reflects (expected : option Z) (reply : completion Response) (o : Outcome)
  : Prop :=
  match reply with
  | Normal r =>
      ok o = verdict expected (r_status r)
      /\ status o = Some (r_status r) /\ error o = None
  | Throw e =>
      ok o = false
      /\ status o = option_map r_status (response e)
      /\ error o = Some (message e)
  | Pending => False
  end.

(** ** The vocabulary of the further properties *)

(** The value a list of key/value pairs gives a key: that of the last pair
    with that key. *)
Definition lastValue (k : string) (pairs : list Pair) : option string :=
  option_map value (List.find (fun p => String.eqb (key p) k) (rev pairs)).


(** A field or header that has a key. *)
Definition hasKey (p : Pair) : bool := negb (blank (key p)).

(** A key that a pair can give to an object: any but the empty one, which
    the builders skip, and ["__proto__"], which the object does not take. *)
Definition ownKey (k : string) : bool :=
  negb (blank k) && negb (String.eqb k "__proto__").

(** The entity that stands for a reserved character, with [apos] the entity
    of the single quote; any other character stands for itself. *)
Definition entity (apos : string) (a : ascii) : string :=
  if Ascii.eqb a "&" then "&amp;"
  else if Ascii.eqb a "<" then "&lt;"
  else if Ascii.eqb a ">" then "&gt;"
  else if Ascii.eqb a dqc then "&quot;"
  else if Ascii.eqb a "'" then apos
  else String a EmptyString.

(** The five characters the escaping functions replace. *)
Definition reserved : list ascii :=
  ["&"%char; "<"%char; ">"%char; dqc; "'"%char].

(** The value of a property of an object. *)
Definition getField (k : string) (v : json) : option json :=
  match v with
  | JObj fields => option_map snd (List.find (fun kv => String.eqb (fst kv) k) fields)
  | _ => None
  end.

(** The requests sent for a test case in one turn of the loop: none, or one
    request, which has the URL, the headers and the body of the test
    case. *)
Definition ownRequests {rt : Runtime} (tc : TestCase) (requests : list RequestConfig)
  : Prop :=
  requests = []
  \/ exists cfg,
       requests = [cfg]
       /\ finalUrlOf tc = Normal (rc_url cfg)
       /\ buildHeaders tc (isFormData (buildBody tc)) = Normal (rc_headers cfg)
       /\ rc_data cfg = data (buildBody tc).

(** What one turn of the loop leaves: an outcome for its test case, the
    requests it sent, and the outcome of a throw when the runner threw. *)
Definition turn {rt : Runtime} (tc : TestCase) (trace : Outcome * list RequestConfig)
  : Prop :=
  caseId (fst trace) = id tc
  /\ o_caseName (fst trace) = caseName tc
  /\ ownRequests tc (snd trace)
  /\ (trim (orS (url tc) EmptyString) = EmptyString ->
      exists stamp,
        fst trace = thrownOutcome tc stamp (Error "Missing URL for test case."))
  /\ (forall e,
        trim (orS (url tc) EmptyString) <> EmptyString ->
        buildHeaders tc (isFormData (buildBody tc)) = Throw e ->
        exists stamp, fst trace = thrownOutcome tc stamp e).

(** The number of occurrences of a character in a string. *)
Fixpoint countChar (c : ascii) (s : string) : nat :=
  match s with
  | EmptyString => 0%nat
  | String a r => ((if Ascii.eqb a c then 1 else 0) + countChar c r)%nat
  end.

(** The number of ['<'] an outcome brings to the JUnit document: the two of
    its element when it passed; when it failed, the two of the failure
    element as well, and those of its error message. *)
Definition entryTags (result : Outcome) : nat :=
  if ok result then 2%nat
  else (4 + countChar "<" (orS (error result) "Request failed"))%nat.

(** The number of tags, opening and closing, of the card of an outcome: the
    twenty-two of every card, and two more for a warning and for an error. *)
Definition cardTags (result : Outcome) : nat :=
  (22 + (if truthyS (warning result) then 2 else 0)
   + (if truthyS (error result) then 2 else 0))%nat.

(** * Properties *)

(** ** The request body *)

Section BodyProperties.

Context {rt : Runtime}.

(** A method that the builder reads as GET: missing, empty, or GET in any
    letter case. *)
Lemma buildBody_GET_like (tc : TestCase) :
  toUpperCase (orS (method tc) "GET") = "GET" -> buildBody tc = noBody.
Proof.
  intros Hget. unfold buildBody. rewrite Hget. reflexivity.
Qed.

(** C4: a test case whose method is GET is built with no request body, no
    form encoding and no warning, whatever its [bodyType], [rawBody] and
    [formData] are. *)
Theorem buildBody_GET_empty (tc : TestCase) :
  method tc = Some "GET" ->
  data (buildBody tc) = None
  /\ isFormData (buildBody tc) = false
  /\ b_warning (buildBody tc) = None.
Proof.
  intros Hm. rewrite buildBody_GET_like.
  - repeat split.
  - rewrite Hm. reflexivity.
Qed.

Lemma blank_spec (s : string) : blank s = true <-> s = EmptyString.
Proof.
  destruct s; simpl; split; congruence.
Qed.

(** The raw body of a test case with a method other than GET, with [text]
    the body as given: a blank [text] gives no body and no warning; when the
    trimmed text parses as JSON the body is the parsed value and there is no
    warning; when it does not parse the body is [text] itself, untrimmed,
    and the warning is raised.  It is the trimmed text that is parsed, not
    the text. *)
Lemma buildBody_raw (tc : TestCase) (text : string) :
  toUpperCase (orS (method tc) "GET") <> "GET" ->
  bodyType tc = Some "raw" ->
  text = default EmptyString (rawBody tc) ->
  (trim text = EmptyString -> buildBody tc = noBody)
  /\ (forall v, trim text <> EmptyString -> JSON_parse (trim text) = Some v ->
        data (buildBody tc) = Some (Parsed v) /\ b_warning (buildBody tc) = None)
  /\ (trim text <> EmptyString -> JSON_parse (trim text) = None ->
        data (buildBody tc) = Some (Text text)
        /\ b_warning (buildBody tc)
           = Some "Raw body is not valid JSON; sending as text.").
Proof.
  intros Hm Hb Ht. unfold buildBody.
  destruct (String.eqb_spec (toUpperCase (orS (method tc) "GET")) "GET") as [E|_];
    [contradiction|].
  rewrite Hb. cbn [isS]. rewrite String.eqb_refl.
  unfold ensureTrimmedS. cbn [ensureTrimmed String_]. rewrite <- Ht.
  assert (Hblank : trim text <> EmptyString -> blank (trim text) = false).
  { intros Hne. destruct (blank (trim text)) eqn:Eb; [|reflexivity].
    apply blank_spec in Eb. contradiction. }
  split; [|split].
  - intros E. rewrite E. reflexivity.
  - intros v Hne Hparse. rewrite (Hblank Hne), Hparse. split; reflexivity.
  - intros Hne Hparse. rewrite (Hblank Hne), Hparse. split; [|reflexivity].
    cbn [data]. destruct (rawBody tc) as [s|]; cbn in Ht; subst text.
    + reflexivity.
    + exfalso. apply Hne. reflexivity.
Qed.

(** C5, where it fails: a raw body that is not JSON and that [trim] turns
    into JSON, as white space that JSON does not know does around a JSON
    text.  The builder parses the trimmed text, so the body it builds is the
    parsed value, with no warning, and not the text with the warning. *)
Theorem buildBody_raw_parses_trimmed (tc : TestCase) (text : string) (v : JsonValue) :
  toUpperCase (orS (method tc) "GET") <> "GET" ->
  bodyType tc = Some "raw" ->
  rawBody tc = Some text ->
  trim text <> EmptyString ->
  JSON_parse text = None ->
  JSON_parse (trim text) = Some v ->
  buildBody tc
  = {| data := Some (Parsed v); isFormData := false; b_warning := None |}.
Proof.
  intros Hm Hb Ht Hne _ Hparse. unfold buildBody.
  destruct (String.eqb_spec (toUpperCase (orS (method tc) "GET")) "GET") as [E|_];
    [contradiction|].
  rewrite Hb, Ht. cbn [isS from_option Datatypes.id]. rewrite String.eqb_refl.
  unfold ensureTrimmedS. cbn [ensureTrimmed String_].
  destruct (blank (trim text)) eqn:Eb; [apply blank_spec in Eb; contradiction|].
  rewrite Hparse. reflexivity.
Qed.

End BodyProperties.

Lemma buildBody_GET_empty_witness :
  let tc := withRawBody (plainCase "GET" "https://api.example.com/ok" (IsNum (Fin 200)))
              "true" in
  data (buildBody (rt := literalRuntime) tc) = None
  /\ isFormData (buildBody (rt := literalRuntime) tc) = false
  /\ b_warning (buildBody (rt := literalRuntime) tc) = None.
Proof.
  intros tc. apply (buildBody_GET_empty tc). reflexivity.
Defined.

Lemma buildBody_raw_witness :
  let post := plainCase "POST" "https://api.example.com/items" (IsNum (Fin 200)) in
  let blanks := " " +:+ nbsp +:+ nl +:+ bom in
  (data (buildBody (rt := literalRuntime) (withRawBody post " {not json} "))
   = Some (Text " {not json} ")
   /\ b_warning (buildBody (rt := literalRuntime) (withRawBody post " {not json} "))
      = Some "Raw body is not valid JSON; sending as text.")
  /\ buildBody (rt := literalRuntime) (withRawBody post blanks) = noBody
  /\ (data (buildBody (rt := literalRuntime) (withRawBody post " null "))
      = Some (Parsed (rt := literalRuntime) LNull)
      /\ b_warning (buildBody (rt := literalRuntime) (withRawBody post " null ")) = None).
Proof.
  intros post blanks.
  assert (Hm : forall text,
            toUpperCase (orS (method (withRawBody post text)) "GET") <> "GET")
    by (intros text; vm_compute; discriminate).
  split; [|split].
  - destruct (buildBody_raw (rt := literalRuntime) (withRawBody post " {not json} ")
                " {not json} " (Hm _) eq_refl eq_refl) as (_ & _ & Htext).
    apply Htext; [vm_compute; discriminate|reflexivity].
  - destruct (buildBody_raw (rt := literalRuntime) (withRawBody post blanks)
                blanks (Hm _) eq_refl eq_refl) as (Hblank & _ & _).
    apply Hblank. reflexivity.
  - destruct (buildBody_raw (rt := literalRuntime) (withRawBody post " null ")
                " null " (Hm _) eq_refl eq_refl) as (_ & Hparsed & _).
    apply Hparsed; [vm_compute; discriminate|reflexivity].
Defined.

Lemma buildBody_raw_parses_trimmed_witness :
  parseLiteral (nbsp +:+ "true") = None
  /\ buildBody (rt := literalRuntime)
       (withRawBody (plainCase "POST" "https://api.example.com/items" (IsNum (Fin 200)))
          (nbsp +:+ "true"))
     = {| data := Some (Parsed (rt := literalRuntime) LTrue);
          isFormData := false; b_warning := None |}.
Proof.
  split; [reflexivity|].
  apply (buildBody_raw_parses_trimmed (rt := literalRuntime)
           (withRawBody (plainCase "POST" "https://api.example.com/items" (IsNum (Fin 200)))
              (nbsp +:+ "true"))
           (nbsp +:+ "true") LTrue);
    solve [reflexivity | vm_compute; discriminate].
Defined.

(** ** The test runner *)

Section RunnerProperties.

Context {rt : Runtime}.

Variable net : RequestConfig -> World -> Reply.

Lemma verdict_spec (expected : option Z) (s : Z) :
  verdict expected s = true <->
  (exists e, expected = Some e /\ s = e) \/ (expected = None /\ 200 <= s < 300).
Proof.
  unfold verdict. destruct expected as [e|].
  - rewrite Z.eqb_eq. split.
    + intros ->. left. eauto.
    + intros [(e' & [= ->] & ->)|[[=] _]]. reflexivity.
  - rewrite andb_true_iff, Z.leb_le, Z.ltb_lt. split.
    + intros [? ?]. right. split; [reflexivity|lia].
    + intros [(e' & [=] & _)|[_ ?]]. lia.
Qed.

Ltac run_step :=
  unfold runTestCase, bind, tryCatch, lift, ret, throw, axios, Date_now, Date_nowISO.

Lemma isS_spec (o : option string) (s : string) : isS o s = true <-> o = Some s.
Proof.
  destruct o as [x|]; cbn.
  - rewrite String.eqb_eq. split; congruence.
  - split; discriminate.
Qed.

Lemma truthyS_spec (o : option string) :
  truthyS o = true <-> exists k, o = Some k /\ k <> EmptyString.
Proof.
  destruct o as [[|c r]|]; cbn; split; try discriminate.
  - intros (k & [= <-] & Hk). contradiction.
  - intros _. eexists. split; [reflexivity|discriminate].
  - reflexivity.
  - intros (k & [=] & _).
Qed.

(** Building the URL and the headers ends at once, with a value or with an
    exception. *)
Lemma finalUrlOf_settles (tc : TestCase) : finalUrlOf tc <> Pending.
Proof.
  unfold finalUrlOf, encodeURIComponent.
  destruct (isS (authType tc) "ApiKey" && truthyS (apiKey (default noAuth (auth tc)))
            && isS (apiKeyLocation (default noAuth (auth tc))) "query"); [|discriminate].
  destruct (isWellFormed _); [|discriminate].
  destruct (isWellFormed _); discriminate.
Qed.

Lemma buildHeaders_settles (tc : TestCase) (b : bool) : buildHeaders tc b <> Pending.
Proof.
  unfold buildHeaders.
  destruct (isS (authType tc) "Basic" && truthyS (username (default noAuth (auth tc)))
            && truthyS (password (default noAuth (auth tc)))); [|discriminate].
  destruct (btoa _); discriminate.
Qed.

(** The headers throw for Basic credentials only, and the URL for an API key
    only: a call throws for one reason at most. *)
Lemma buildHeaders_throw_url (tc : TestCase) (b : bool) (e : Exn) :
  buildHeaders tc b = Throw e ->
  finalUrlOf tc = Normal (trim (orS (url tc) EmptyString)).
Proof.
  intros Hh. unfold finalUrlOf.
  destruct (isS (authType tc) "ApiKey") eqn:Ea; [|reflexivity].
  exfalso. apply isS_spec in Ea. revert Hh. unfold buildHeaders. rewrite Ea.
  cbn. discriminate.
Qed.

(** A blank URL: the call throws and the world is untouched. *)
Lemma runTestCase_missing_url (tc : TestCase) (w : World) :
  trim (orS (url tc) EmptyString) = EmptyString ->
  runTestCase net tc w = (Throw (Error "Missing URL for test case."), w).
Proof.
  intros Hurl. run_step. unfold ensureTrimmedS. cbn [ensureTrimmed String_].
  rewrite Hurl. reflexivity.
Qed.

(** The URL cannot be built: the call throws and the world is untouched. *)
Lemma runTestCase_url_throw (tc : TestCase) (w : World) (e : Exn) :
  trim (orS (url tc) EmptyString) <> EmptyString ->
  finalUrlOf tc = Throw e ->
  runTestCase net tc w = (Throw e, w).
Proof.
  intros Hurl Hu. run_step. unfold ensureTrimmedS. cbn [ensureTrimmed String_].
  destruct (blank (trim (orS (url tc) EmptyString))) eqn:Eb.
  - apply blank_spec in Eb. contradiction.
  - rewrite Hu. reflexivity.
Qed.

(** The headers cannot be built: the call throws and the world is
    untouched. *)
Lemma runTestCase_headers_throw (tc : TestCase) (w : World) (e : Exn) :
  trim (orS (url tc) EmptyString) <> EmptyString ->
  buildHeaders tc (isFormData (buildBody tc)) = Throw e ->
  runTestCase net tc w = (Throw e, w).
Proof.
  intros Hurl Hh. run_step. unfold ensureTrimmedS. cbn [ensureTrimmed String_].
  destruct (blank (trim (orS (url tc) EmptyString))) eqn:Eb.
  - apply blank_spec in Eb. contradiction.
  - rewrite (buildHeaders_throw_url tc _ e Hh), Hh. reflexivity.
Qed.

(** Otherwise the client is called once.  A call that settles, with a
    response or with an exception, gives an outcome; a call that never
    settles gives nothing, and the runner never returns. *)
Lemma runTestCase_attempt (tc : TestCase) (w : World) (u : string)
  (h : gmap string string) :
  trim (orS (url tc) EmptyString) <> EmptyString ->
  finalUrlOf tc = Normal u ->
  buildHeaders tc (isFormData (buildBody tc)) = Normal h ->
  exists cfg,
    rc_url cfg = u
    /\ rc_headers cfg = h
    /\ rc_data cfg = data (buildBody tc)
    /\ rc_method cfg = toUpperCase (orS (method tc) "GET")
    /\ rc_timeout cfg = match asNumber (maxResponseTime tc) with
                        | Some s => if negb (s =? 0) && (0 <? s)
                                    then Some (toDouble (s * 1000)) else None
                        | None => None
                        end
    /\ (answer (net cfg w) = Pending ->
        runTestCase net tc w
        = (Pending, {| clock := clock w + took (net cfg w); sent := sent w ++ [cfg] |}))
    /\ (answer (net cfg w) <> Pending ->
        exists o,
          runTestCase net tc w
          = (Normal o, {| clock := clock w + took (net cfg w); sent := sent w ++ [cfg] |})
          /\ caseId o = id tc
          /\ o_caseName o = caseName tc
          /\ o_expectedStatus o = asNumber (expectedStatus tc)
          /\ timeMs o = Fin (took (net cfg w))
          /\ warning o = b_warning (buildBody tc)
          /\ executedAt o = Some (toISOString (clock w + took (net cfg w)))
          /\ reflects (asNumber (expectedStatus tc)) (answer (net cfg w)) o).
Proof.
  intros Hurl Hu Hh. run_step. unfold ensureTrimmedS. cbn [ensureTrimmed String_].
  destruct (blank (trim (orS (url tc) EmptyString))) eqn:Eb.
  { apply blank_spec in Eb. contradiction. }
  rewrite Hu, Hh.
  match goal with
  | |- context [net ?c w] => exists c; set (cfg := c)
  end.
  do 5 (split; [reflexivity|]).
  destruct (net cfg w) as [d [r|e|]] eqn:En; cbn [answer took clock sent]; split;
    try (intros H; discriminate H); try (intros H; contradiction);
    try (intros _; reflexivity);
    intros _; eexists; (split; [reflexivity|]); cbn;
    replace (clock w + d - clock w) with d by lia; repeat split; reflexivity.
Qed.

(** The ways a call can go. *)
Lemma runTestCase_cases (tc : TestCase) (w : World) :
  (trim (orS (url tc) EmptyString) = EmptyString
   /\ runTestCase net tc w = (Throw (Error "Missing URL for test case."), w))
  \/ (exists e, trim (orS (url tc) EmptyString) <> EmptyString
      /\ (finalUrlOf tc = Throw e
          \/ buildHeaders tc (isFormData (buildBody tc)) = Throw e)
      /\ runTestCase net tc w = (Throw e, w))
  \/ (exists cfg,
        trim (orS (url tc) EmptyString) <> EmptyString
        /\ finalUrlOf tc = Normal (rc_url cfg)
        /\ answer (net cfg w) = Pending
        /\ runTestCase net tc w
           = (Pending, {| clock := clock w + took (net cfg w); sent := sent w ++ [cfg] |}))
  \/ (exists cfg o,
        trim (orS (url tc) EmptyString) <> EmptyString
        /\ finalUrlOf tc = Normal (rc_url cfg)
        /\ runTestCase net tc w
           = (Normal o, {| clock := clock w + took (net cfg w); sent := sent w ++ [cfg] |})
        /\ reflects (o_expectedStatus o) (answer (net cfg w)) o).
Proof.
  destruct (string_dec (trim (orS (url tc) EmptyString)) EmptyString) as [Hurl|Hurl].
  { left. split; [assumption|]. apply runTestCase_missing_url. assumption. }
  right.
  destruct (finalUrlOf tc) as [u|e|] eqn:Hu;
    [|left; exists e; split; [assumption|]; split; [left; reflexivity|];
      apply runTestCase_url_throw; assumption
     |exfalso; exact (finalUrlOf_settles tc Hu)].
  destruct (buildHeaders tc (isFormData (buildBody tc))) as [h|e|] eqn:Hh;
    [|left; exists e; split; [assumption|]; split; [right; reflexivity|];
      apply runTestCase_headers_throw; assumption
     |exfalso; exact (buildHeaders_settles tc _ Hh)].
  right.
  destruct (runTestCase_attempt tc w u h Hurl Hu Hh)
    as (cfg & <- & _ & _ & _ & _ & Hpending & Hsettled).
  destruct (answer (net cfg w)) as [r|e|] eqn:Ha.
  - right. destruct Hsettled as (o & Hrun & _ & _ & Hexp & _ & _ & _ & Hans);
      [discriminate|].
    exists cfg, o. rewrite Ha, Hexp. auto.
  - right. destruct Hsettled as (o & Hrun & _ & _ & Hexp & _ & _ & _ & Hans);
      [discriminate|].
    exists cfg, o. rewrite Ha, Hexp. auto.
  - left. exists cfg. auto.
Qed.

(** What a call leaves in the log of requests: nothing when it throws, one
    request when it returns or never settles. *)
Lemma app_singleton_neq {A} (l : list A) (x : A) : l <> l ++ [x].
Proof.
  intros E. apply (f_equal (@length A)) in E. rewrite length_app in E.
  cbn in E. lia.
Qed.

Lemma runTestCase_sent (tc : TestCase) (w w' : World) (res : completion Outcome)
  (cfg : RequestConfig) :
  runTestCase net tc w = (res, w') ->
  sent w' = sent w ++ [cfg] ->
  finalUrlOf tc = Normal (rc_url cfg)
  /\ w' = {| clock := clock w + took (net cfg w); sent := sent w ++ [cfg] |}
  /\ (res = Pending /\ answer (net cfg w) = Pending
      \/ exists o, res = Normal o
           /\ reflects (o_expectedStatus o) (answer (net cfg w)) o).
Proof.
  intros Hrun Hsent.
  destruct (runTestCase_cases tc w)
    as [[_ Hr]|[(e & _ & _ & Hr)|[(cfg' & _ & Hu & Ha & Hr)|(cfg' & o & _ & Hu & Hr & Hans)]]];
    rewrite Hr in Hrun; injection Hrun as <- <-.
  - exfalso. exact (app_singleton_neq _ _ Hsent).
  - exfalso. exact (app_singleton_neq _ _ Hsent).
  - cbn [sent] in Hsent. apply app_inv_head in Hsent. injection Hsent as ->.
    split; [assumption|]. split; [reflexivity|]. left. split; [reflexivity|assumption].
  - cbn [sent] in Hsent. apply app_inv_head in Hsent. injection Hsent as ->.
    split; [assumption|]. split; [reflexivity|]. right.
    exists o. split; [reflexivity|assumption].
Qed.

Lemma runTestCase_returns (tc : TestCase) (w w' : World) (o : Outcome) :
  runTestCase net tc w = (Normal o, w') ->
  exists cfg, sent w' = sent w ++ [cfg].
Proof.
  intros Hrun.
  destruct (runTestCase_cases tc w)
    as [[_ Hr]|[(e & _ & _ & Hr)|[(cfg' & _ & _ & _ & Hr)|(cfg' & o' & _ & _ & Hr & _)]]];
    rewrite Hr in Hrun; try discriminate Hrun.
  injection Hrun as <- <-. exists cfg'. reflexivity.
Qed.

(** C1, as amended: when the client returned a response, [ok] holds exactly
    when the outcome meets the expectation recorded in it; when the client
    threw, [ok] is false, whatever status a partial response carried.  A
    call that returns an outcome is one that the client settled. *)
Theorem runTestCase_verdict (tc : TestCase) (w w' : World) (o : Outcome) :
  runTestCase net tc w = (Normal o, w') ->
  exists cfg,
    sent w' = sent w ++ [cfg]
    /\ match answer (net cfg w) with
       | Normal _ => ok o = true <-> meetsExpectation o
       | Throw _ => ok o = false
       | Pending => False
       end.
Proof.
  intros Hrun. destruct (runTestCase_returns tc w w' o Hrun) as [cfg Hsent].
  exists cfg. split; [assumption|].
  destruct (runTestCase_sent tc w w' _ cfg Hrun Hsent)
    as (_ & _ & [[Hp _]|(o' & [= <-] & Hans)]); [discriminate Hp|].
  destruct (answer (net cfg w)) as [r|e|].
  - destruct Hans as (Hok & Hst & _). rewrite Hok, verdict_spec.
    unfold meetsExpectation. rewrite Hst. split.
    + intros [(x & Hx & ->)|[Hn Hr]]; [left|right]; eauto.
    + intros [(x & Hx & [= ->])|[Hn (s & [= ->] & Hr)]]; [left|right]; eauto.
  - apply Hans.
  - exact Hans.
Qed.

Lemma queryKeyName_orS (a : Auth) :
  orS (option_map trim (apiKeyName a)) "apiKey" = queryKeyName a.
Proof.
  unfold queryKeyName. destruct (apiKeyName a) as [n|]; [|reflexivity].
  cbn. destruct (trim n); reflexivity.
Qed.

(** What [encodeURIComponent] returns, when it returns. *)
Lemma encodeURIComponent_returns (s t : string) :
  encodeURIComponent s = Normal t -> t = percentEncode s.
Proof.
  unfold encodeURIComponent. destruct (isWellFormed s); [|discriminate].
  intros [= <-]. reflexivity.
Qed.

(** C6, as amended: the URL of the request the runner sends.  With
    [authType] ApiKey, [apiKeyLocation] query and a non-empty key, it is the
    trimmed URL followed by ['?'] when the trimmed URL has no ['?'] and by
    ['&'] otherwise, then the encoded name, ['='] and the encoded key, the
    name being [apiKeyName] trimmed, or ["apiKey"] when that is unset or
    blank; the encoded name and key are what [encodeURIComponent] returned
    for them.  With any other authorization it is the trimmed URL. *)
Theorem runTestCase_final_url (tc : TestCase) (w w' : World)
  (res : completion Outcome) (cfg : RequestConfig) :
  runTestCase net tc w = (res, w') ->
  sent w' = sent w ++ [cfg] ->
  let a := default noAuth (auth tc) in
  let base := trim (orS (url tc) EmptyString) in
  (forall k,
      authType tc = Some "ApiKey" -> apiKeyLocation a = Some "query" ->
      apiKey a = Some k -> k <> EmptyString ->
      encodeURIComponent (queryKeyName a) = Normal (percentEncode (queryKeyName a))
      /\ encodeURIComponent k = Normal (percentEncode k)
      /\ rc_url cfg
         = base +:+ (if includes "?" base then "&" else "?")
           +:+ percentEncode (queryKeyName a) +:+ "=" +:+ percentEncode k)
  /\ (~ (authType tc = Some "ApiKey" /\ apiKeyLocation a = Some "query"
         /\ exists k, apiKey a = Some k /\ k <> EmptyString) ->
      rc_url cfg = base).
Proof.
  intros Hrun Hsent a base.
  destruct (runTestCase_sent tc w w' res cfg Hrun Hsent) as (Hu & _).
  revert Hu. unfold finalUrlOf, ensureTrimmedS. cbn [ensureTrimmed String_].
  fold a. fold base. rewrite queryKeyName_orS. intros Hu. split.
  - intros k Ht Hl Hk Hne. revert Hu.
    rewrite (proj2 (isS_spec _ _) Ht), (proj2 (isS_spec _ _) Hl).
    rewrite (proj2 (truthyS_spec _)) by eauto.
    rewrite Hk. cbn [andb].
    assert (Hor : orS (Some k) EmptyString = k) by (destruct k; [contradiction|reflexivity]).
    rewrite Hor.
    destruct (encodeURIComponent (queryKeyName a)) as [n| |] eqn:En; try discriminate.
    destruct (encodeURIComponent k) as [v| |] eqn:Ev; try discriminate.
    apply encodeURIComponent_returns in En, Ev. subst n v.
    intros [= <-]. auto.
  - intros Hnot. revert Hu.
    destruct (isS (authType tc) "ApiKey") eqn:Et; [|intros [= <-]; reflexivity].
    destruct (truthyS (apiKey a)) eqn:Ek; [|intros [= <-]; reflexivity].
    destruct (isS (apiKeyLocation a) "query") eqn:El; [|intros [= <-]; reflexivity].
    exfalso. apply Hnot. rewrite <- !isS_spec, <- truthyS_spec. auto.
Qed.

End RunnerProperties.

(** ** Runs on examples *)

(** Scenario A of the specification: a GET that expects 200 and gets 200. *)
Example scenario_A :
  fst (runTestCase (replyWith 35 (Normal okResponse))
         (plainCase "GET" "https://api.example.com/ok" (IsNum (Fin 200))) world0)
  = Normal passedOutcome.
Proof.
  reflexivity.
Qed.

(** Scenario B: a raw body that is not JSON is sent as text, with the
    warning, and the verdict follows the status. *)
Example scenario_B :
  exists o w',
    runTestCase (replyWith 35 (Normal okResponse))
      (withRawBody (plainCase "POST" "https://api.example.com/items" (IsNum (Fin 200)))
         "{not json}") world0
    = (Normal o, w')
    /\ ok o = true
    /\ warning o = Some "Raw body is not valid JSON; sending as text."
    /\ option_map rc_data (head (sent w')) = Some (Some (Text "{not json}")).
Proof.
  eexists. eexists. split; [lazy; reflexivity|]. repeat split.
Qed.

(** Scenario C: 404 expected, 500 observed. *)
Example scenario_C :
  exists o w',
    runTestCase
      (replyWith 35 (Normal {| r_status := 500; r_statusText := "Internal Server Error" |}))
      (plainCase "GET" "https://api.example.com/x" (IsNum (Fin 404))) world0
    = (Normal o, w')
    /\ ok o = false /\ status o = Some 500.
Proof.
  eexists. eexists. split; [lazy; reflexivity|]. repeat split.
Qed.

(** Scenario E: the client gives up after the three seconds allowed. *)
Example scenario_E :
  exists o w',
    runTestCase (replyWith 3000 (Throw (Error "timeout of 3000ms exceeded")))
      (withTimeout (plainCase "GET" "https://api.example.com/x" (IsNum (Fin 200)))
         (IsNum (Fin 3))) world0
    = (Normal o, w')
    /\ ok o = false /\ status o = None /\ timeMs o = Fin 3000
    /\ error o = Some "timeout of 3000ms exceeded"
    /\ option_map rc_timeout (head (sent w')) = Some (Some 3000).
Proof.
  eexists. eexists. split; [lazy; reflexivity|]. repeat split.
Qed.

(** [trim] removes each white space character and line terminator, at both
    ends and only there; the next line U+0085 and the zero width space
    U+200B are not white space. *)
Example trim_white_space :
  forallb (fun ws => String.eqb (trim (ws +:+ "x" +:+ ws +:+ "y" +:+ ws))
                       ("x" +:+ ws +:+ "y"))
    whiteSpace = true
  /\ trim (utf8 133 +:+ "x") = utf8 133 +:+ "x"
  /\ trim ("x" +:+ utf8 8203) = "x" +:+ utf8 8203.
Proof.
  split; [vm_compute; reflexivity|]. split; vm_compute; reflexivity.
Qed.

(** The surrogate U+D800 on its own: it is not well formed, it cannot be
    encoded for a URL, and [JSON.stringify] escapes it.  The character
    U+D7FF before the surrogates is well formed. *)
Example lone_surrogate :
  isWellFormed ("abc" +:+ loneSurrogate) = false
  /\ isWellFormed (utf8 55295) = true
  /\ encodeURIComponent (rt := literalRuntime) ("abc" +:+ loneSurrogate)
     = Throw (URIError (rt := literalRuntime))
  /\ encodeURIComponent (rt := literalRuntime) "a b" = Normal "a%20b"
  /\ quote ("abc" +:+ loneSurrogate)
     = dq +:+ "abc" +:+ String backslash "ud800" +:+ dq
  /\ quote (utf8 55295) = dq +:+ utf8 55295 +:+ dq.
Proof.
  repeat split.
Qed.

(** [Number(null)] is [0] and [Number(undefined)] is [NaN]: a test case
    whose [expectedStatus] is [null] is held to the status 0, one where it is
    missing to any 2xx. *)
Example asNumber_null_and_missing :
  asNumber IsNull = Some 0 /\ asNumber Absent = None
  /\ verdict (asNumber IsNull) 200 = false
  /\ verdict (asNumber Absent) 200 = true.
Proof.
  repeat split.
Qed.

Lemma runTestCase_verdict_witness :
  ok passedOutcome = true <-> meetsExpectation passedOutcome.
Proof.
  destruct (runTestCase_verdict (replyWith 35 (Normal okResponse))
              (plainCase "GET" "https://api.example.com/ok" (IsNum (Fin 200)))
              world0 _ passedOutcome eq_refl) as (cfg & _ & Hiff).
  exact Hiff.
Defined.

(** C1 fails as stated on the path where the client throws with a partial
    response: the status 200 equals the expected status, and [ok] is false. *)
Lemma runTestCase_verdict_counterexample :
  exists o w',
    runTestCase (replyWith 120 (Throw abortedWithResponse))
      (plainCase "GET" "https://api.example.com/ok" (IsNum (Fin 200))) world0
    = (Normal o, w')
    /\ o_expectedStatus o = Some 200 /\ status o = Some 200
    /\ ~ (ok o = true <-> meetsExpectation o).
Proof.
  eexists. eexists. split; [lazy; reflexivity|]. cbn. split; [reflexivity|].
  split; [reflexivity|]. intros [_ H].
  assert (false = true) as E; [|discriminate E].
  apply H. left. exists 200. split; reflexivity.
Qed.

Lemma runTestCase_final_url_witness :
  exists res w' cfg,
    runTestCase (replyWith 35 (Normal okResponse)) (scenarioD "token") world0 = (res, w')
    /\ sent w' = [cfg]
    /\ rc_url cfg = "https://x.com/y?z=1&token=abc".
Proof.
  eexists. eexists. eexists. split; [lazy; reflexivity|]. split; [reflexivity|].
  apply (proj1 (runTestCase_final_url (replyWith 35 (Normal okResponse))
                  (scenarioD "token") world0 _ _ _ eq_refl eq_refl) "abc");
    solve [reflexivity | discriminate].
Defined.

(** C6 fails as stated when [apiKeyName] has blanks around it: the runner
    encodes the trimmed name. *)
Lemma runTestCase_final_url_counterexample :
  exists o w' cfg,
    runTestCase (replyWith 35 (Normal okResponse)) (scenarioD " token ") world0
    = (Normal o, w')
    /\ sent w' = [cfg]
    /\ rc_url cfg = "https://x.com/y?z=1&token=abc"
    /\ claimedFinalUrl (scenarioD " token ") = "https://x.com/y?z=1&%20token%20=abc"
    /\ rc_url cfg <> claimedFinalUrl (scenarioD " token ").
Proof.
  eexists. eexists. eexists. split; [lazy; reflexivity|].
  split; [reflexivity|]. split; [reflexivity|]. split; [reflexivity|].
  vm_compute. discriminate.
Qed.

(** C7, at a failing input: a test case with a URL and Basic credentials that
    hold a character above U+00FF.  [btoa] throws while the headers are
    built, outside the [try] block: the call throws the exception of [btoa]
    and sends no request. *)
Theorem runTestCase_basic_auth_throws {rt : Runtime}
  (net : RequestConfig -> World -> Reply) (w : World) :
  let tc := withAuth (plainCase "GET" "https://api.example.com/ok" (IsNum (Fin 200)))
              "Basic" (basicAuth "user" "p€ss") in
  trim (orS (url tc) EmptyString) = "https://api.example.com/ok"
  /\ runTestCase net tc w = (Throw InvalidCharacterError, w).
Proof.
  intros tc. split; [reflexivity|].
  apply runTestCase_headers_throw.
  - vm_compute. discriminate.
  - reflexivity.
Qed.

(** ** Durations *)









(** ** The HTML preview *)

Section PreviewProperties.

Context {rt : Runtime}.

(** C9: with [meta.executedAt] supplied, the document does not depend on the
    clock: it is the head, the supplied time as the locale prints it, and a
    rest that is a function of the test cases and the outcomes alone.  Two
    calls on the same inputs give the same string, and nothing but the
    "Generated" field changes with [meta]. *)
Theorem generateAllureHtml_deterministic (testCases : list TestCase)
  (results : list Outcome) (meta : Meta) (stamp : string) :
  m_executedAt meta = Some stamp ->
  stamp <> EmptyString ->
  (forall now,
      generateAllureHtml now testCases results meta
      = pageHead +:+ escapeHtml (VStr (Date_toLocaleString stamp))
        +:+ pageBody testCases results +:+ pageTail)
  /\ (forall now1 now2,
        generateAllureHtml now1 testCases results meta
        = generateAllureHtml now2 testCases results meta).
Proof.
  intros Hmeta Hne.
  assert (Hgen : forall now,
             generateAllureHtml now testCases results meta
             = pageHead +:+ escapeHtml (VStr (Date_toLocaleString stamp))
               +:+ pageBody testCases results +:+ pageTail).
  { intros now. unfold generateAllureHtml, formatDateTime. rewrite Hmeta.
    destruct stamp as [|c r]; [contradiction|reflexivity]. }
  split; [exact Hgen|].
  intros now1 now2. rewrite (Hgen now1), (Hgen now2). reflexivity.
Qed.

(** Without [meta.executedAt] the "Generated" field is the clock reading, and
    it is the only part that varies. *)
Lemma generateAllureHtml_clock (testCases : list TestCase) (results : list Outcome)
  (now : Z) :
  generateAllureHtml now testCases results {| m_executedAt := None |}
  = pageHead +:+ escapeHtml (VStr (formatDateTime (Some (toISOString now))))
    +:+ pageBody testCases results +:+ pageTail.
Proof.
  reflexivity.
Qed.

End PreviewProperties.

Lemma generateAllureHtml_deterministic_witness :
  let meta := {| m_executedAt := Some "2023-11-14T22:13:21.000Z" |} in
  generateAllureHtml (rt := literalRuntime) 0 [] [passedOutcome] meta
  = generateAllureHtml (rt := literalRuntime) 1700000001000 [] [passedOutcome] meta.
Proof.
  intros meta.
  apply (proj2 (generateAllureHtml_deterministic (rt := literalRuntime)
                  [] [passedOutcome] meta "2023-11-14T22:13:21.000Z"
                  eq_refl ltac:(discriminate))).
Defined.

(** ** The JUnit report *)

Lemma failures_count (results : list Outcome) :
  length (List.filter (fun r => negb (ok r)) results)
  = count_occ Bool.bool_dec (map ok results) false.
Proof.
  induction results as [|r rs IH]; [reflexivity|].
  cbn. destruct (ok r); cbn; rewrite IH; reflexivity.
Qed.

(** C3: the document opens with the XML declaration and the tag of a test
    suite whose [tests] attribute is the number of test cases and whose
    [failures] attribute is the number of outcomes with [ok] false; the two
    lists need not have the same length. *)
Theorem generateJUnitReport_counts (testCases : list TestCase) (results : list Outcome) :
  let entries := join nl (map (testCaseEntry (casesById testCases)) results) in
    generateJUnitReport testCases results
    = ("<?xml version=" +:+ dq +:+ "1.0" +:+ dq +:+ " encoding=" +:+ dq +:+ "UTF-8"
       +:+ dq +:+ "?>" +:+ nl +:+ "<testsuite name=" +:+ dq +:+ "API Tests" +:+ dq
       +:+ " tests=" +:+ dq +:+ ofZ (Z.of_nat (length testCases)) +:+ dq
       +:+ " failures=" +:+ dq
       +:+ ofZ (Z.of_nat (count_occ Bool.bool_dec (map ok results) false)) +:+ dq
       +:+ ">" +:+ nl)
      +:+ entries +:+ nl +:+ "</testsuite>".
Proof.
  intros entries. unfold generateJUnitReport, junitOpening.
  rewrite failures_count. reflexivity.
Qed.

(** What [escapeXml] does to a string: it trims it, then replaces the five
    reserved characters. *)
Lemma escapeXml_string (s : string) :
  escapeXml (VStr s)
  = replaceAll "'" "&apos;"
      (replaceAll dqc "&quot;"
         (replaceAll ">" "&gt;"
            (replaceAll "<" "&lt;"
               (replaceAll "&" "&amp;" (trim s))))).
Proof.
  reflexivity.
Qed.

Lemma append_cons (a : ascii) (s t : string) :
  String a s +:+ t = String a (s +:+ t).
Proof.
  reflexivity.
Qed.

Lemma includes_app (c : ascii) (s t : string) :
  includes c (s +:+ t) = includes c s || includes c t.
Proof.
  induction s as [|a s IH]; [reflexivity|].
  rewrite append_cons. cbn. destruct (Ascii.eqb a c); [reflexivity|exact IH].
Qed.

Lemma replaceAll_removes (c : ascii) (by_ s : string) :
  includes c by_ = false -> includes c (replaceAll c by_ s) = false.
Proof.
  intros Hby. induction s as [|a s IH]; [reflexivity|].
  cbn. destruct (Ascii.eqb a c) eqn:E.
  - rewrite includes_app, Hby, IH. reflexivity.
  - cbn. rewrite E. exact IH.
Qed.

Lemma replaceAll_keeps_out (c d : ascii) (by_ s : string) :
  includes c by_ = false -> includes c s = false ->
  includes c (replaceAll d by_ s) = false.
Proof.
  intros Hby. induction s as [|a s IH]; [reflexivity|].
  cbn. destruct (Ascii.eqb a c) eqn:E; [discriminate|]. intros Hs.
  destruct (Ascii.eqb a d).
  - rewrite includes_app, Hby, IH by assumption. reflexivity.
  - cbn. rewrite E. apply IH. assumption.
Qed.

(** The text [escapeXml] returns holds no ['<'], ['>'], double quote or
    single quote: the name of a test case cannot close its attribute. *)
Lemma escapeXml_no_markup (v : jsval) (c : ascii) :
  In c ["<"%char; ">"%char; dqc; "'"%char] ->
  includes c (escapeXml v) = false.
Proof.
  unfold escapeXml. generalize (String_ (ensureTrimmed (nullish v (VStr EmptyString)))).
  intros s [<-|[<-|[<-|[<-|[]]]]].
  - do 3 (apply replaceAll_keeps_out; [reflexivity|]).
    apply replaceAll_removes. reflexivity.
  - do 2 (apply replaceAll_keeps_out; [reflexivity|]).
    apply replaceAll_removes. reflexivity.
  - apply replaceAll_keeps_out; [reflexivity|].
    apply replaceAll_removes. reflexivity.
  - apply replaceAll_removes. reflexivity.
Qed.

(** C2, at a failing input: an error message that holds ['<'].  The name of
    the test case goes through [escapeXml]; the message is put in the body of
    [<failure>] as it is. *)
Theorem generateJUnitReport_failure_body_not_escaped :
  generateJUnitReport []
    [failedOutcome "Example" "Unexpected token < in JSON at position 0"]
  = "<?xml version=" +:+ dq +:+ "1.0" +:+ dq +:+ " encoding=" +:+ dq +:+ "UTF-8" +:+ dq +:+ "?>"
      +:+ nl +:+ "<testsuite name=" +:+ dq +:+ "API Tests" +:+ dq +:+ " tests=" +:+ dq +:+ "0" +:+ dq +:+ " failures=" +:+ dq +:+ "1" +:+ dq +:+ ">"
      +:+ nl +:+ "    <testcase classname=" +:+ dq +:+ "API" +:+ dq +:+ " name=" +:+ dq +:+ "Example" +:+ dq +:+ " time=" +:+ dq +:+ "0.012" +:+ dq +:+ ">"
      +:+ nl +:+ "      <failure message=" +:+ dq +:+ "Expected 200, got error" +:+ dq +:+ ">Unexpected token < in JSON at position 0</failure>"
      +:+ nl +:+ "    </testcase>"
      +:+ nl +:+ "</testsuite>".
Proof.
  vm_compute. reflexivity.
Qed.

(** C10, at a failing input: a name and an error message with blanks around
    them.  The name is trimmed by [escapeXml]; the message, which does not go
    through it, keeps its blanks. *)
Theorem generateJUnitReport_failure_body_not_trimmed :
  generateJUnitReport []
    [failedOutcome "  Padded name  " "  Network Error  "]
  = "<?xml version=" +:+ dq +:+ "1.0" +:+ dq +:+ " encoding=" +:+ dq +:+ "UTF-8" +:+ dq +:+ "?>"
      +:+ nl +:+ "<testsuite name=" +:+ dq +:+ "API Tests" +:+ dq +:+ " tests=" +:+ dq +:+ "0" +:+ dq +:+ " failures=" +:+ dq +:+ "1" +:+ dq +:+ ">"
      +:+ nl +:+ "    <testcase classname=" +:+ dq +:+ "API" +:+ dq +:+ " name=" +:+ dq +:+ "Padded name" +:+ dq +:+ " time=" +:+ dq +:+ "0.012" +:+ dq +:+ ">"
      +:+ nl +:+ "      <failure message=" +:+ dq +:+ "Expected 200, got error" +:+ dq +:+ ">  Network Error  </failure>"
      +:+ nl +:+ "    </testcase>"
      +:+ nl +:+ "</testsuite>".
Proof.
  vm_compute. reflexivity.
Qed.

(** * Further properties *)

(** ** The headers of a request *)

Section HeaderProperties.

Context {rt : Runtime}.

Lemma assign_lookup (k v : string) (obj : gmap string string) (j : string) :
  assign k v obj !! j
  = if String.eqb k "__proto__" then obj !! j
    else if String.eqb k j then Some v else obj !! j.
Proof.
  unfold assign. destruct (String.eqb k "__proto__"); [reflexivity|].
  destruct (String.eqb_spec k j) as [->|Hne].
  - apply lookup_insert_eq.
  - apply lookup_insert_ne. assumption.
Qed.

Lemma foldl_setEntry_lookup (pairs : list Pair) (m : gmap string string) (k : string) :
  foldl setEntry m pairs !! k
  = if ownKey k
    then match lastValue k pairs with
         | Some v => Some v
         | None => m !! k
         end
    else m !! k.
Proof.
  unfold lastValue, ownKey. induction pairs as [|p ps IH] using rev_ind.
  - cbn. destruct (negb (blank k) && negb (k =? "__proto__")%string); reflexivity.
  - rewrite foldl_app, rev_unit. cbn [foldl List.find]. unfold setEntry at 1.
    destruct (blank (key p)) eqn:Eb.
    + rewrite IH. destruct (String.eqb_spec (key p) k) as [<-|Hne]; [|reflexivity].
      rewrite Eb. reflexivity.
    + rewrite assign_lookup.
      destruct (String.eqb_spec (key p) k) as [<-|Hne].
      * rewrite Eb in *. cbn [negb andb option_map] in *.
        destruct (String.eqb (key p) "__proto__"); [exact IH|reflexivity].
      * destruct (String.eqb (key p) "__proto__"); exact IH.
Qed.

(** The map of headers before the content type is looked at. *)
Lemma buildHeaders_formData (tc : TestCase) :
  buildHeaders tc true
  = match buildHeaders tc false with
    | Normal h0 =>
        Normal (filter (fun kv => negb (String.eqb (toLowerCase kv.1) "content-type")) h0)
    | Throw e => Throw e
    | Pending => Pending
    end.
Proof.
  unfold buildHeaders.
  destruct (isS (authType tc) "Basic" && truthyS (username (default noAuth (auth tc)))
            && truthyS (password (default noAuth (auth tc)))); [|reflexivity].
  destruct (btoa _); reflexivity.
Qed.


(** X1: for a form-encoded body no [Content-Type] header is sent, in any
    letter case, and every other header is sent as it would be without the
    form encoding. *)
Theorem buildHeaders_strips_content_type (tc : TestCase) (h : gmap string string) :
  buildHeaders tc true = Normal h ->
  exists h0,
    buildHeaders tc false = Normal h0
    /\ forall k,
         h !! k = if String.eqb (toLowerCase k) "content-type" then None else h0 !! k.
Proof.
  rewrite buildHeaders_formData.
  destruct (buildHeaders tc false) as [h0|e|]; [|discriminate|discriminate].
  intros [= <-]. exists h0. split; [reflexivity|]. intros k.
  destruct (String.eqb (toLowerCase k) "content-type") eqn:E.
  - apply map_lookup_filter_None. right. intros v _. cbn. rewrite E. intros [].
  - destruct (h0 !! k) as [v|] eqn:Hk.
    + apply map_lookup_filter_Some. split; [assumption|]. cbn. rewrite E. exact I.
    + apply map_lookup_filter_None. left. assumption.
Qed.

(** X2: with no authorization to apply, the headers are those of the list:
    a pair with an empty key is ignored, as is a pair with the key
    ["__proto__"], which the object of the headers does not take; of several
    pairs with one key the last one gives the value. *)
Theorem buildHeaders_last_pair_wins (tc : TestCase) (k : string) :
  authType tc <> Some "Bearer" ->
  authType tc <> Some "Basic" ->
  authType tc <> Some "ApiKey" ->
  exists h,
    buildHeaders tc false = Normal h
    /\ h !! k = if ownKey k then lastValue k (default [] (headers tc)) else None.
Proof.
  intros Hb Hba Ha. unfold buildHeaders.
  destruct (isS (authType tc) "Bearer") eqn:E1; [apply isS_spec in E1; contradiction|].
  destruct (isS (authType tc) "Basic") eqn:E2; [apply isS_spec in E2; contradiction|].
  destruct (isS (authType tc) "ApiKey") eqn:E3; [apply isS_spec in E3; contradiction|].
  cbn [andb]. eexists. split; [reflexivity|].
  rewrite foldl_setEntry_lookup, lookup_empty.
  destruct (ownKey k); [|reflexivity]. destruct (lastValue _ _); reflexivity.
Qed.

(** X3: a Bearer token sets the [Authorization] header, whatever the list of
    headers holds under that name, with or without form encoding. *)
Theorem buildHeaders_bearer (tc : TestCase) (tok : string) (b : bool) :
  authType tc = Some "Bearer" ->
  token (default noAuth (auth tc)) = Some tok ->
  tok <> EmptyString ->
  exists h,
    buildHeaders tc b = Normal h
    /\ h !! "Authorization" = Some ("Bearer " +:+ tok).
Proof.
  intros Ht Htok Hne.
  assert (Hfalse : exists h, buildHeaders tc false = Normal h
                     /\ h !! "Authorization" = Some ("Bearer " +:+ tok)).
  { unfold buildHeaders. rewrite Ht, Htok.
    destruct tok as [|c r]; [contradiction|]. cbn.
    eexists. split; [reflexivity|]. apply lookup_insert_eq. }
  destruct Hfalse as (h0 & Hh0 & Hl). destruct b.
  - rewrite buildHeaders_formData, Hh0. eexists. split; [reflexivity|].
    apply map_lookup_filter_Some. split; [assumption|]. exact I.
  - exists h0. split; assumption.
Qed.


End HeaderProperties.

Lemma buildHeaders_strips_content_type_witness :
  exists h h0,
    buildHeaders (rt := literalRuntime) formCase true = Normal h
    /\ buildHeaders (rt := literalRuntime) formCase false = Normal h0
    /\ h !! "Content-Type" = None
    /\ h !! "content-type" = None
    /\ h !! "Accept" = h0 !! "Accept".
Proof.
  destruct (buildHeaders_strips_content_type (rt := literalRuntime) formCase _ eq_refl)
    as (h0 & H0 & Hk).
  eexists. exists h0. split; [reflexivity|]. split; [exact H0|].
  split; [exact (Hk "Content-Type")|]. split; [exact (Hk "content-type")|].
  exact (Hk "Accept").
Defined.

Lemma buildHeaders_last_pair_wins_witness :
  exists h,
    buildHeaders (rt := literalRuntime) formCase false = Normal h
    /\ h !! "Accept" = Some "application/json"
    /\ h !! "__proto__" = None.
Proof.
  assert (H1 : authType formCase <> Some "Bearer") by discriminate.
  assert (H2 : authType formCase <> Some "Basic") by discriminate.
  assert (H3 : authType formCase <> Some "ApiKey") by discriminate.
  destruct (buildHeaders_last_pair_wins (rt := literalRuntime) formCase "Accept" H1 H2 H3)
    as (h & Hh & Haccept).
  destruct (buildHeaders_last_pair_wins (rt := literalRuntime) formCase "__proto__" H1 H2 H3)
    as (h' & Hh' & Hproto).
  rewrite Hh in Hh'. injection Hh' as <-.
  exists h. split; [exact Hh|]. split; [exact Haccept|exact Hproto].
Defined.

Lemma buildHeaders_bearer_witness :
  exists h,
    buildHeaders (rt := literalRuntime)
      (withAuth formCase "Bearer" (bearerAuth "s3cr3t")) true = Normal h
    /\ h !! "Authorization" = Some "Bearer s3cr3t".
Proof.
  apply (buildHeaders_bearer (rt := literalRuntime)
           (withAuth formCase "Bearer" (bearerAuth "s3cr3t")) "s3cr3t" true);
    solve [reflexivity | discriminate].
Defined.


(** ** The body of a request *)

Section MoreBodyProperties.

Context {rt : Runtime}.

Lemma existsb_hasKey (l : list Pair) :
  existsb hasKey l = false <-> List.filter hasKey l = [].
Proof.
  induction l as [|p l IH]; [split; reflexivity|].
  cbn. destruct (hasKey p); cbn.
  - split; discriminate.
  - exact IH.
Qed.

Lemma foldl_appendEntry (l : list Pair) (acc : list (string * string)) :
  foldl appendEntry acc l
  = acc ++ map (fun p => (key p, value p)) (List.filter hasKey l).
Proof.
  revert acc. induction l as [|p l IH]; intros acc.
  - cbn. rewrite app_nil_r. reflexivity.
  - cbn [foldl List.filter]. rewrite IH. unfold appendEntry, hasKey.
    destruct (blank (key p)); cbn [negb map]; [reflexivity|].
    rewrite <- app_assoc. reflexivity.
Qed.

(** X5: a form body, for a method other than GET.  The fields with an empty
    key are dropped.  With no field left there is no body and no form
    encoding.  Otherwise, where [FormData] exists, the body holds the other
    fields in their order, repeated keys included, and is form-encoded; where
    it does not, the body is a plain object in which the last field of a key
    gives its value, and is not form-encoded; a field named ["__proto__"]
    counts as a field and is sent in the form, but the plain object does not
    take it. *)
Theorem buildBody_form_data (tc : TestCase) :
  toUpperCase (orS (method tc) "GET") <> "GET" ->
  bodyType tc = Some "form-data" ->
  let fields := default [] (formData tc) in
  let kept := List.filter hasKey fields in
  (kept = [] -> buildBody tc = noBody)
  /\ (kept <> [] -> hasFormData = true ->
      buildBody tc
      = {| data := Some (Form (map (fun p => (key p, value p)) kept));
           isFormData := true; b_warning := None |})
  /\ (kept <> [] -> hasFormData = false ->
      exists obj,
        buildBody tc
        = {| data := Some (Plain obj); isFormData := false; b_warning := None |}
        /\ forall k, obj !! k = if ownKey k then lastValue k fields else None).
Proof.
  intros Hm Hb fields kept. unfold buildBody.
  destruct (String.eqb_spec (toUpperCase (orS (method tc) "GET")) "GET") as [E|_];
    [contradiction|].
  rewrite Hb. cbn [isS].
  change (("form-data" =? "raw")%string) with false.
  change (("form-data" =? "form-data")%string) with true. cbv iota.
  fold fields. change (fun p : Pair => negb (blank (key p))) with hasKey.
  split; [|split].
  - intros Hk. apply existsb_hasKey in Hk. rewrite Hk. reflexivity.
  - intros Hk Hfd.
    destruct (existsb hasKey fields) eqn:E; [|apply existsb_hasKey in E; contradiction].
    cbn [negb]. rewrite Hfd, foldl_appendEntry. reflexivity.
  - intros Hk Hfd.
    destruct (existsb hasKey fields) eqn:E; [|apply existsb_hasKey in E; contradiction].
    cbn [negb]. rewrite Hfd. eexists. split; [reflexivity|].
    intros k. rewrite foldl_setEntry_lookup, lookup_empty.
    destruct (ownKey k); [|reflexivity]. destruct (lastValue k fields); reflexivity.
Qed.

(** X6: the builder warns in one case only: when it sends the raw body as
    text.  A warning is always the one sentence, and comes with the raw body
    as given for the body, not form-encoded. *)
Theorem buildBody_warning (tc : TestCase) (w : string) :
  b_warning (buildBody tc) = Some w ->
  w = "Raw body is not valid JSON; sending as text."
  /\ exists text,
       rawBody tc = Some text
       /\ JSON_parse (trim text) = None
       /\ buildBody tc
          = {| data := Some (Text text); isFormData := false; b_warning := Some w |}.
Proof.
  unfold buildBody.
  destruct (String.eqb (toUpperCase (orS (method tc) "GET")) "GET");
    [intros H; cbn in H; discriminate H|].
  destruct (isS (bodyType tc) "raw").
  - unfold ensureTrimmedS. cbn [ensureTrimmed String_].
    destruct (rawBody tc) as [text|]; cbn [from_option Datatypes.id];
      [|intros H; vm_compute in H; discriminate H].
    destruct (blank (trim text)); [intros H; cbn in H; discriminate H|].
    destruct (JSON_parse (trim text)) eqn:Ep; [intros H; cbn in H; discriminate H|].
    intros [= <-]. split; [reflexivity|]. exists text.
    split; [reflexivity|]. split; [exact Ep|reflexivity].
  - destruct (isS (bodyType tc) "form-data"); [|intros H; cbn in H; discriminate H].
    destruct (negb _); [intros H; cbn in H; discriminate H|].
    destruct hasFormData; intros H; cbn in H; discriminate H.
Qed.

End MoreBodyProperties.

Lemma buildBody_form_data_witness :
  buildBody (rt := literalRuntime) formCase
  = {| data := Some (Form [("name", "report"); ("__proto__", "a field"); ("name", "copy")]);
       isFormData := true; b_warning := None |}
  /\ exists obj,
       buildBody (rt := scriptRuntime) formCase
       = {| data := Some (Plain obj); isFormData := false; b_warning := None |}
       /\ obj !! "name" = Some "copy"
       /\ obj !! "__proto__" = None.
Proof.
  assert (Hm : toUpperCase (orS (method formCase) "GET") <> "GET")
    by (vm_compute; discriminate).
  split.
  - apply (proj1 (proj2 (buildBody_form_data (rt := literalRuntime) formCase Hm eq_refl))).
    + discriminate.
    + reflexivity.
  - destruct (proj2 (proj2 (buildBody_form_data (rt := scriptRuntime) formCase Hm eq_refl)))
      as (obj & Hobj & Hk).
    + discriminate.
    + reflexivity.
    + exists obj. split; [exact Hobj|].
      split; [exact (Hk "name")|exact (Hk "__proto__")].
Defined.

Lemma buildBody_warning_witness :
  exists text,
    Some " {not json} " = Some text
    /\ parseLiteral (trim text) = None
    /\ buildBody (rt := literalRuntime)
         (withRawBody (plainCase "POST" "https://api.example.com/items" (IsNum (Fin 200)))
            " {not json} ")
       = {| data := Some (Text text); isFormData := false;
            b_warning := Some "Raw body is not valid JSON; sending as text." |}.
Proof.
  exact (proj2 (buildBody_warning (rt := literalRuntime)
                  (withRawBody
                     (plainCase "POST" "https://api.example.com/items" (IsNum (Fin 200)))
                     " {not json} ")
                  "Raw body is not valid JSON; sending as text." eq_refl)).
Defined.

(** ** Escaping *)

Lemma append_assoc (s t u : string) : (s +:+ t) +:+ u = s +:+ (t +:+ u).
Proof.
  induction s as [|a s IH]; [reflexivity|].
  rewrite !append_cons, IH. reflexivity.
Qed.

Lemma replaceAll_app (c : ascii) (by_ s t : string) :
  replaceAll c by_ (s +:+ t) = replaceAll c by_ s +:+ replaceAll c by_ t.
Proof.
  induction s as [|a s IH]; [reflexivity|].
  rewrite append_cons. cbn [replaceAll]. rewrite IH.
  destruct (Ascii.eqb a c); [|reflexivity].
  symmetry. apply append_assoc.
Qed.

Lemma replaceAll_subst (c : ascii) (by_ : string) (f : ascii -> string) (s : string) :
  replaceAll c by_ (subst f s) = subst (fun a => replaceAll c by_ (f a)) s.
Proof.
  induction s as [|a s IH]; [reflexivity|].
  cbn [subst]. rewrite replaceAll_app, IH. reflexivity.
Qed.

Lemma subst_ext (f g : ascii -> string) (s : string) :
  (forall a, f a = g a) -> subst f s = subst g s.
Proof.
  intros Hfg. induction s as [|a s IH]; [reflexivity|].
  cbn. rewrite Hfg, IH. reflexivity.
Qed.

Lemma subst_single (s : string) : subst (fun a => String a EmptyString) s = s.
Proof.
  induction s as [|a s IH]; [reflexivity|]. cbn [subst]. rewrite IH. reflexivity.
Qed.

(** The five replacements in the order of the source, on any string. *)
Lemma replacements_single_pass (apos s : string) :
  (forall a, replaceAll "'" apos (replaceAll dqc "&quot;" (replaceAll ">" "&gt;"
               (replaceAll "<" "&lt;" (replaceAll "&" "&amp;" (String a EmptyString)))))
             = entity apos a) ->
  replaceAll "'" apos (replaceAll dqc "&quot;" (replaceAll ">" "&gt;"
    (replaceAll "<" "&lt;" (replaceAll "&" "&amp;" s))))
  = subst (entity apos) s.
Proof.
  intros Hone. rewrite <- (subst_single s) at 1.
  rewrite !replaceAll_subst. apply subst_ext. exact Hone.
Qed.

Lemma entity_apos (a : ascii) :
  replaceAll "'" "&apos;" (replaceAll dqc "&quot;" (replaceAll ">" "&gt;"
    (replaceAll "<" "&lt;" (replaceAll "&" "&amp;" (String a EmptyString)))))
  = entity "&apos;" a.
Proof.
  destruct a as [[] [] [] [] [] [] [] []]; reflexivity.
Qed.

Lemma entity_39 (a : ascii) :
  replaceAll "'" "&#39;" (replaceAll dqc "&quot;" (replaceAll ">" "&gt;"
    (replaceAll "<" "&lt;" (replaceAll "&" "&amp;" (String a EmptyString)))))
  = entity "&#39;" a.
Proof.
  destruct a as [[] [] [] [] [] [] [] []]; reflexivity.
Qed.

Lemma escaping_single_pass_aux (s : string) :
  escapeXml (VStr s) = subst (entity "&apos;") (trim s)
  /\ escapeHtml (VStr s) = subst (entity "&#39;") (trim s).
Proof.
  split.
  - unfold escapeXml. cbn [nullish ensureTrimmed String_].
    apply replacements_single_pass, entity_apos.
  - unfold escapeHtml. cbn [nullish ensureTrimmed String_].
    apply replacements_single_pass, entity_39.
Qed.

(** X7: escaping is one pass over the trimmed text: each reserved character
    becomes its entity and every other character is kept.  The ['&'] that a
    replacement writes is never replaced in its turn. *)
Theorem escaping_single_pass (s : string) :
  escapeXml (VStr s) = subst (entity "&apos;") (trim s)
  /\ escapeHtml (VStr s) = subst (entity "&#39;") (trim s).
Proof.
  exact (escaping_single_pass_aux s).
Qed.

Lemma includes_subst_entity (apos : string) (c : ascii) (s : string) :
  (forall a, includes c (entity apos a) = false) ->
  includes c (subst (entity apos) s) = false.
Proof.
  intros Hc. induction s as [|a s IH]; [reflexivity|].
  cbn [subst]. rewrite includes_app, Hc, IH. reflexivity.
Qed.

Lemma entity_no_markup (apos : string) (c a : ascii) :
  In c ["<"%char; ">"%char; dqc; "'"%char] ->
  includes c apos = false ->
  includes c (entity apos a) = false.
Proof.
  intros Hin Hapos. unfold entity.
  destruct (Ascii.eqb_spec a "&"); [destruct Hin as [<-|[<-|[<-|[<-|[]]]]]; reflexivity|].
  destruct (Ascii.eqb_spec a "<"); [destruct Hin as [<-|[<-|[<-|[<-|[]]]]]; reflexivity|].
  destruct (Ascii.eqb_spec a ">"); [destruct Hin as [<-|[<-|[<-|[<-|[]]]]]; reflexivity|].
  destruct (Ascii.eqb_spec a dqc); [destruct Hin as [<-|[<-|[<-|[<-|[]]]]]; reflexivity|].
  destruct (Ascii.eqb_spec a "'"); [assumption|].
  cbn. destruct (Ascii.eqb_spec a c) as [->|_]; [|reflexivity].
  destruct Hin as [<-|[<-|[<-|[<-|[]]]]]; contradiction.
Qed.

(** X8: whatever value is escaped, the result holds no ['<'], no ['>'], no
    double quote and no single quote: escaped text can neither open a tag nor
    close an attribute value. *)
Theorem escaping_leaves_no_markup (v : jsval) :
  forallb (fun c => negb (includes c (escapeXml v)) && negb (includes c (escapeHtml v)))
    ["<"%char; ">"%char; dqc; "'"%char] = true.
Proof.
  assert (Hx : forall c, In c ["<"%char; ">"%char; dqc; "'"%char] ->
                 includes c (escapeXml v) = false /\ includes c (escapeHtml v) = false).
  { intros c Hin. unfold escapeXml, escapeHtml.
    generalize (String_ (ensureTrimmed (nullish v (VStr EmptyString)))). intros s.
    rewrite (replacements_single_pass "&apos;" s entity_apos).
    rewrite (replacements_single_pass "&#39;" s entity_39).
    split; apply includes_subst_entity; intros a; apply entity_no_markup;
      try assumption; destruct Hin as [<-|[<-|[<-|[<-|[]]]]]; reflexivity. }
  apply forallb_forall. intros c Hin. destruct (Hx c Hin) as [-> ->]. reflexivity.
Qed.

(** X9: a text that holds none of the five reserved characters is only
    trimmed. *)
Theorem escaping_keeps_plain_text (s : string) :
  (forall c, In c reserved -> includes c (trim s) = false) ->
  escapeXml (VStr s) = trim s /\ escapeHtml (VStr s) = trim s.
Proof.
  intros Hplain.
  assert (Hid : forall apos t, (forall c, In c reserved -> includes c t = false) ->
                  subst (entity apos) t = t).
  { intros apos t. induction t as [|a t IH]; intros Ht; [reflexivity|].
    cbn [subst]. rewrite IH.
    - assert (Ha : forall c, In c reserved -> Ascii.eqb a c = false).
      { intros c Hc. specialize (Ht c Hc). cbn in Ht.
        destruct (Ascii.eqb a c); [discriminate|reflexivity]. }
      unfold entity. rewrite !Ha by (cbn; auto 10). reflexivity.
    - intros c Hc. specialize (Ht c Hc). cbn in Ht.
      destruct (Ascii.eqb a c); [discriminate|assumption]. }
  destruct (escaping_single_pass_aux s) as [-> ->].
  split; apply Hid; assumption.
Qed.

Lemma escaping_keeps_plain_text_witness :
  escapeXml (VStr "  GET /users  ") = "GET /users"
  /\ escapeHtml (VStr "  GET /users  ") = "GET /users".
Proof.
  apply (escaping_keeps_plain_text "  GET /users  ").
  intros c [<-|[<-|[<-|[<-|[<-|[]]]]]]; reflexivity.
Defined.

(** ** Looking test cases up *)

Lemma casesById_find (testCases : list TestCase) (k : string) :
  casesById testCases !! k
  = List.find (fun tc => String.eqb (id tc) k) (rev testCases).
Proof.
  unfold casesById. induction testCases as [|tc tcs IH] using rev_ind.
  - apply lookup_empty.
  - rewrite foldl_app, rev_unit. cbn [foldl List.find].
    destruct (String.eqb_spec (id tc) k) as [->|Hne].
    + apply lookup_insert_eq.
    + rewrite lookup_insert_ne by assumption. exact IH.
Qed.

(** X10: what the reports read of the test case of an outcome.  A property
    of the test case is that of the last test case of the list with the
    outcome's [caseId], and it is undefined when no test case has that
    id. *)
Theorem casesById_field (testCases : list TestCase) (k : string)
  (f : TestCase -> option string) :
  field (casesById testCases !! k) f
  = match List.find (fun tc => String.eqb (id tc) k) (rev testCases) with
    | Some tc => f tc
    | None => None
    end.
Proof.
  rewrite casesById_find. reflexivity.
Qed.

Lemma find_none_rev (testCases : list TestCase) (k : string) :
  (forall tc, In tc testCases -> id tc <> k) ->
  List.find (fun tc => String.eqb (id tc) k) (rev testCases) = None.
Proof.
  intros Hno. destruct (List.find _ _) as [tc|] eqn:E; [|reflexivity].
  apply find_some in E. destruct E as [Hin Heq].
  apply in_rev in Hin. apply String.eqb_eq in Heq.
  exfalso. exact (Hno tc Hin Heq).
Qed.

(** X11: an outcome whose [caseId] is that of no test case is reported in
    the JUnit document under its own [caseName], escaped, and under
    ["Unnamed Case"] when it has none. *)
Theorem testCaseEntry_orphan (testCases : list TestCase) (result : Outcome) :
  (forall tc, In tc testCases -> id tc <> caseId result) ->
  testCaseEntry (casesById testCases) result
  = "    <testcase classname=" +:+ dq +:+ "API" +:+ dq +:+ " name=" +:+ dq
    +:+ escapeXml (VStr (orS (o_caseName result) "Unnamed Case")) +:+ dq
    +:+ " time=" +:+ dq +:+ div1000ToString (orZero (timeMs result)) +:+ dq
    +:+ ">" +:+ nl
    +:+ (if ok result then EmptyString
         else "      " +:+ failureBlock result +:+ nl)
    +:+ "    </testcase>".
Proof.
  intros Hno. unfold testCaseEntry.
  rewrite casesById_find, find_none_rev by assumption.
  assert (Hname : junitName None result = orS (o_caseName result) "Unnamed Case").
  { unfold junitName. cbn [field].
    destruct (o_caseName result) as [[|c r]|]; reflexivity. }
  rewrite Hname.
  assert (Hfail : blank (failureBlock result) = ok result).
  { unfold failureBlock. destruct (ok result); reflexivity. }
  rewrite Hfail. reflexivity.
Qed.

Lemma testCaseEntry_orphan_witness :
  testCaseEntry (casesById [formCase]) passedOutcome
  = "    <testcase classname=" +:+ dq +:+ "API" +:+ dq +:+ " name=" +:+ dq
    +:+ "Example" +:+ dq +:+ " time=" +:+ dq +:+ "0.035" +:+ dq +:+ ">" +:+ nl
    +:+ "    </testcase>".
Proof.
  apply (testCaseEntry_orphan [formCase] passedOutcome).
  intros tc [<-|[]]. discriminate.
Defined.

(** ** One call of the runner *)

Section MoreRunnerProperties.

Context {rt : Runtime}.

Variable net : RequestConfig -> World -> Reply.



Lemma toDouble_safe (p : Z) : 0 <= p < 2 ^ 53 -> toDouble p = p.
Proof.
  intros [Hlo Hhi]. unfold toDouble.
  destruct (Z.log2 p <? 53) eqn:E; [reflexivity|].
  apply Z.ltb_ge in E. exfalso.
  destruct (Z.eq_dec p 0) as [->|Hp]; [cbn in E; lia|].
  pose proof (Z.log2_spec p ltac:(lia)) as [Hl _].
  assert (2 ^ 53 <= 2 ^ Z.log2 p) by (apply Z.pow_le_mono_r; lia).
  lia.
Qed.

(** X13: the request a call sends.  Its body is the one built.  Its method
    is that of the test case in upper case, GET when there is none, for a
    method whose characters are ASCII.  Its timeout is the [maxResponseTime],
    a whole number of seconds, times 1000 when that is positive: the product
    itself below [2 ^ 53], and the double nearest to it beyond.  It has no
    timeout when [maxResponseTime] is missing, [null], zero, negative or not
    finite. *)
Theorem runTestCase_request (tc : TestCase) (w w' : World)
  (res : completion Outcome) (cfg : RequestConfig) :
  runTestCase net tc w = (res, w') ->
  sent w' = sent w ++ [cfg] ->
  rc_data cfg = data (buildBody tc)
  /\ (isASCII (orS (method tc) "GET") = true ->
      rc_method cfg = toUpperCase (orS (method tc) "GET"))
  /\ rc_timeout cfg = match maxResponseTime tc with
                      | IsNum (Fin s) => if 0 <? s then Some (toDouble (s * 1000)) else None
                      | _ => None
                      end
  /\ (forall s,
        maxResponseTime tc = IsNum (Fin s) -> 0 < s -> s * 1000 < 2 ^ 53 ->
        rc_timeout cfg = Some (s * 1000)).
Proof.
  intros Hrun Hsent.
  destruct (string_dec (trim (orS (url tc) EmptyString)) EmptyString) as [Hurl|Hurl].
  { rewrite (runTestCase_missing_url net tc w Hurl) in Hrun.
    injection Hrun as <- <-. exfalso. exact (app_singleton_neq _ _ Hsent). }
  destruct (finalUrlOf tc) as [u|e|] eqn:Hu;
    [|rewrite (runTestCase_url_throw net tc w e Hurl Hu) in Hrun;
      injection Hrun as <- <-; exfalso; exact (app_singleton_neq _ _ Hsent)
     |exfalso; exact (finalUrlOf_settles tc Hu)].
  destruct (buildHeaders tc (isFormData (buildBody tc))) as [h|e|] eqn:Hh;
    [|rewrite (runTestCase_headers_throw net tc w e Hurl Hh) in Hrun;
      injection Hrun as <- <-; exfalso; exact (app_singleton_neq _ _ Hsent)
     |exfalso; exact (buildHeaders_settles tc _ Hh)].
  destruct (runTestCase_attempt net tc w u h Hurl Hu Hh)
    as (cfg' & _ & _ & Hd & Hm & Ht & Hpending & Hsettled).
  assert (Hcfg : cfg' = cfg).
  { destruct (answer (net cfg' w)) as [r|e|] eqn:Ha.
    - destruct Hsettled as (o & Hr & _); [discriminate|].
      rewrite Hr in Hrun. injection Hrun as <- <-.
      cbn [sent] in Hsent. apply app_inv_head in Hsent. injection Hsent as ->. reflexivity.
    - destruct Hsettled as (o & Hr & _); [discriminate|].
      rewrite Hr in Hrun. injection Hrun as <- <-.
      cbn [sent] in Hsent. apply app_inv_head in Hsent. injection Hsent as ->. reflexivity.
    - rewrite (Hpending eq_refl) in Hrun. injection Hrun as <- <-.
      cbn [sent] in Hsent. apply app_inv_head in Hsent. injection Hsent as ->. reflexivity. }
  subst cfg'. split; [assumption|]. split; [intros _; assumption|]. rewrite Ht.
  unfold asNumber, Number. split.
  - destruct (maxResponseTime tc) as [| |[s| | |]]; try reflexivity.
    destruct (Z.eqb_spec s 0) as [->|Hs]; [reflexivity|]. reflexivity.
  - intros s -> Hs Hsafe.
    destruct (Z.eqb_spec s 0) as [->|_]; [lia|].
    destruct (Z.ltb_spec 0 s) as [_|?]; [|lia].
    cbn [negb andb]. rewrite toDouble_safe by lia. reflexivity.
Qed.

(** X22: an API key that goes to the query under a name, or with a value,
    that is not well formed makes the runner throw the exception of
    [encodeURIComponent]: the URL is built outside the [try] block, so the
    call throws and sends no request. *)
Theorem runTestCase_uri_error (tc : TestCase) (w : World) (k : string) :
  trim (orS (url tc) EmptyString) <> EmptyString ->
  authType tc = Some "ApiKey" ->
  apiKeyLocation (default noAuth (auth tc)) = Some "query" ->
  apiKey (default noAuth (auth tc)) = Some k ->
  k <> EmptyString ->
  isWellFormed (queryKeyName (default noAuth (auth tc))) && isWellFormed k = false ->
  runTestCase net tc w = (Throw URIError, w).
Proof.
  intros Hurl Ht Hl Hk Hne Hwf. apply runTestCase_url_throw; [assumption|].
  unfold finalUrlOf, encodeURIComponent. rewrite queryKeyName_orS.
  rewrite (proj2 (isS_spec _ _) Ht), (proj2 (isS_spec _ _) Hl).
  rewrite (proj2 (truthyS_spec _)) by eauto.
  rewrite Hk. cbn [andb].
  assert (Hor : orS (Some k) EmptyString = k) by (destruct k; [contradiction|reflexivity]).
  rewrite Hor.
  destruct (isWellFormed (queryKeyName (default noAuth (auth tc)))); [|reflexivity].
  cbn [andb] in Hwf. rewrite Hwf. reflexivity.
Qed.

End MoreRunnerProperties.


Lemma runTestCase_uri_error_witness :
  runTestCase (replyWith 35 (Normal okResponse))
    (withAuth (plainCase "GET" "https://api.example.com/ok" (IsNum (Fin 200)))
       "ApiKey" (apiKeyAuth "token" ("abc" +:+ loneSurrogate))) world0
  = (Throw (URIError (rt := literalRuntime)), world0).
Proof.
  apply (runTestCase_uri_error (replyWith 35 (Normal okResponse))
           (withAuth (plainCase "GET" "https://api.example.com/ok" (IsNum (Fin 200)))
              "ApiKey" (apiKeyAuth "token" ("abc" +:+ loneSurrogate)))
           world0 ("abc" +:+ loneSurrogate));
    solve [reflexivity | vm_compute; discriminate].
Defined.

Lemma runTestCase_request_witness :
  exists res w' cfg,
    runTestCase (replyWith 35 (Normal okResponse)) formCase world0 = (res, w')
    /\ sent w' = [cfg]
    /\ rc_data cfg
       = Some (Form [("name", "report"); ("__proto__", "a field"); ("name", "copy")])
    /\ rc_method cfg = "POST"
    /\ rc_timeout cfg = Some 5000.
Proof.
  destruct (runTestCase (replyWith 35 (Normal okResponse)) formCase world0)
    as [res w'] eqn:Hrun.
  assert (Hsent : exists cfg, sent w' = sent world0 ++ [cfg]).
  { pose proof Hrun as Hc. vm_compute in Hc. injection Hc as _ <-.
    eexists. reflexivity. }
  destruct Hsent as [cfg Hsent].
  exists res, w', cfg. split; [reflexivity|]. split; [exact Hsent|].
  destruct (runTestCase_request (replyWith 35 (Normal okResponse)) formCase world0
              w' res cfg Hrun Hsent) as (Hd & Hm & _ & Ht).
  split; [exact Hd|]. split; [exact (Hm eq_refl)|].
  apply (Ht 5); [reflexivity|lia|reflexivity].
Defined.

(** ** The case cards of the preview *)

Section MorePreviewProperties.

Context {rt : Runtime}.

Lemma blank_app_l (s t : string) : blank s = false -> blank (s +:+ t) = false.
Proof.
  destruct s as [|a s]; [discriminate|reflexivity].
Qed.

Lemma caseCard_not_blank (cases : gmap string TestCase) (idx : nat) (result : Outcome) :
  blank (caseCard cases idx result) = false.
Proof.
  unfold caseCard. cbv zeta. apply blank_app_l. reflexivity.
Qed.

Lemma join_not_blank (x : string) (l : list string) :
  blank x = false -> blank (join EmptyString (x :: l)) = false.
Proof.
  intros Hx. destruct l as [|y l]; [exact Hx|].
  cbn [join]. apply blank_app_l. exact Hx.
Qed.

(** X14: the preview closes its summary with one card for each outcome, in
    their order, and with the notice that no test case was executed exactly
    when there is no outcome. *)
Theorem pageBody_cases (testCases : list TestCase) (results : list Outcome) :
  exists summary,
    pageBody testCases results
    = summary
      +:+ match results with
          | [] => "<div class=" +:+ dq +:+ "empty" +:+ dq
                  +:+ ">No test cases were executed.</div>"
          | _ => join EmptyString (imap (caseCard (casesById testCases)) results)
          end.
Proof.
  unfold pageBody. cbv zeta.
  set (cards := join EmptyString (imap (caseCard (casesById testCases)) results)).
  set (none := "<div class=" +:+ dq +:+ "empty" +:+ dq
               +:+ ">No test cases were executed.</div>").
  replace (if blank cards then none else cards)
    with (match results with [] => none | _ => cards end).
  - generalize (match results with [] => none | _ => cards end).
    intros closing. rewrite <- !append_assoc. eexists. reflexivity.
  - subst cards. destruct results as [|r rs]; [reflexivity|].
    cbn [imap]. rewrite join_not_blank; [reflexivity|]. apply caseCard_not_blank.
Qed.

End MorePreviewProperties.

(** ** The archive *)

Lemma casesById_found (testCases : list TestCase) (k : string) (tc : TestCase) :
  casesById testCases !! k = Some tc -> id tc = k.
Proof.
  rewrite casesById_find. intros Hfind.
  apply find_some in Hfind. apply String.eqb_eq, Hfind.
Qed.

Lemma historyId_stable (testCases : list TestCase) (result : Outcome) (uuid : string) :
  orS (relatedId (casesById testCases !! caseId result))
    (orS (Some (caseId result)) uuid)
  = if blank (caseId result) then uuid else caseId result.
Proof.
  destruct (casesById testCases !! caseId result) as [tc|] eqn:E; cbn [relatedId option_map].
  - apply casesById_found in E. rewrite E.
    destruct (caseId result); reflexivity.
  - destruct (caseId result); reflexivity.
Qed.

(** X15: the files of the archive.  [executor.json] comes first, then one
    file for each outcome, in their order.  The file of an outcome is named
    after the identifier drawn for it and holds that identifier as [uuid].
    Its [historyId] is the [caseId] of the outcome, whether a test case has
    that id or not, and the drawn identifier only when the [caseId] is empty:
    it does not change from one run to the next.  For a finite [timeMs] the
    result stops at the time of the run and starts [timeMs] before it. *)
Theorem generateAllureArchive_files (uuidv4 : nat -> string) (now : Z)
  (testCases : list TestCase) (results : list Outcome) (options : Options) :
  let files := generateAllureArchive uuidv4 now testCases results options in
  length files = S (length results)
  /\ option_map fst (files !! 0%nat) = Some "executor.json"
  /\ forall n r,
       results !! n = Some r ->
       exists v,
         files !! S n = Some (uuidv4 n +:+ "-result.json", stringify EmptyString v)
         /\ getField "uuid" v = Some (JStr (uuidv4 n))
         /\ getField "historyId" v
            = Some (JStr (if blank (caseId r) then uuidv4 n else caseId r))
         /\ forall t,
              timeMs r = Fin t ->
              getField "start" v = Some (JNum (Fin (now - t)))
              /\ getField "stop" v = Some (JNum (Fin now))
              /\ getField "time" v = Some (JNum (Fin t)).
Proof.
  intros files. subst files. unfold generateAllureArchive.
  split; [cbn; rewrite length_imap; reflexivity|].
  split; [reflexivity|].
  intros n r Hr.
  match goal with
  | |- context [(?a :: ?l) !! S n] => change ((a :: l) !! S n) with (l !! n)
  end.
  rewrite list_lookup_imap, Hr. cbn [fmap option_fmap option_map].
  eexists. split; [reflexivity|].
  unfold allureResult. cbv zeta. rewrite historyId_stable.
  split; [reflexivity|]. split; [reflexivity|].
  intros t Ht. rewrite Ht.
  assert (Hz : orZero (Fin t) = Fin t).
  { unfold orZero, truthy. destruct (Z.eqb_spec t 0) as [->|_]; reflexivity. }
  rewrite Hz. unfold sub, negate, add.
  replace (now + - t) with (now - t) by lia.
  destruct (statusDetails r); repeat split; reflexivity.
Qed.

(** X16: the status of a result and its details.  A failed outcome gives
    the status [failed] and details whose message is never empty: the error
    of the outcome, or the expected and the observed status when it has no
    error.  A passed outcome gives the status [passed], with its warning for
    the message when it has one and no details otherwise. *)
Theorem allureResult_status (cases : gmap string TestCase) (now : Z) (uuid : string)
  (result : Outcome) :
  let v := allureResult cases now uuid result in
  if ok result
  then getField "status" v = Some (JStr "passed")
       /\ getField "statusDetails" v
          = match warning result with
            | Some (String c w) => Some (JObj [("message", JStr (String c w))])
            | _ => None
            end
  else getField "status" v = Some (JStr "failed")
       /\ exists message rest,
            getField "statusDetails" v = Some (JObj (("message", JStr message) :: rest))
            /\ message <> EmptyString
            /\ (forall e, error result = Some e -> e <> EmptyString -> message = e).
Proof.
  intros v. subst v. unfold allureResult. cbv zeta. unfold statusDetails.
  destruct (ok result); cbn [negb].
  - split; [reflexivity|].
    destruct (warning result) as [[|c w]|]; reflexivity.
  - split; [reflexivity|].
    exists (orS (error result) (expectation result)). eexists.
    split; [reflexivity|]. split.
    + destruct (error result) as [[|c e]|]; cbn [orS]; try discriminate;
        unfold expectation; rewrite append_cons; discriminate.
    + intros e -> He. destruct e; [contradiction|reflexivity].
Qed.

(** ** A run of all the test cases *)

Section BatchProperties.

Context {rt : Runtime}.

Variable net : RequestConfig -> World -> Reply.

(** One turn of the loop: it leaves an outcome, or the call of the client
    never settles and the loop goes no further. *)
Lemma turn_total (tc : TestCase) (w : World) :
  (exists o w' requests,
     tryCatch (runTestCase net tc)
       (fun error => bind Date_nowISO (fun stamp => ret (thrownOutcome tc stamp error))) w
     = (Normal o, w')
     /\ turn tc (o, requests)
     /\ sent w' = sent w ++ requests)
  \/ (exists w' cfg,
        tryCatch (runTestCase net tc)
          (fun error => bind Date_nowISO (fun stamp => ret (thrownOutcome tc stamp error))) w
        = (Pending, w')
        /\ answer (net cfg w) = Pending).
Proof.
  unfold tryCatch.
  destruct (string_dec (trim (orS (url tc) EmptyString)) EmptyString) as [Hurl|Hurl].
  { left. rewrite (runTestCase_missing_url net tc w Hurl).
    eexists. exists w, []. split; [reflexivity|]. split.
    - split; [reflexivity|]. split; [reflexivity|]. split; [left; reflexivity|]. split.
      + intros _. eexists. reflexivity.
      + intros e Hne. contradiction.
    - rewrite app_nil_r. reflexivity. }
  destruct (finalUrlOf tc) as [u|e|] eqn:Hu;
    [| |exfalso; exact (finalUrlOf_settles tc Hu)].
  2: { left. rewrite (runTestCase_url_throw net tc w e Hurl Hu).
       eexists. exists w, []. split; [reflexivity|]. split.
       - split; [reflexivity|]. split; [reflexivity|]. split; [left; reflexivity|]. split.
         + intros Hb. contradiction.
         + intros e' _ He. rewrite (buildHeaders_throw_url tc _ e' He) in Hu.
           discriminate Hu.
       - rewrite app_nil_r. reflexivity. }
  destruct (buildHeaders tc (isFormData (buildBody tc))) as [h|e|] eqn:Hh;
    [| |exfalso; exact (buildHeaders_settles tc _ Hh)].
  2: { left. rewrite (runTestCase_headers_throw net tc w e Hurl Hh).
       eexists. exists w, []. split; [reflexivity|]. split.
       - split; [reflexivity|]. split; [reflexivity|]. split; [left; reflexivity|]. split.
         + intros Hb. contradiction.
         + intros e' _ He. assert (e' = e) as -> by congruence.
           eexists. reflexivity.
       - rewrite app_nil_r. reflexivity. }
  destruct (runTestCase_attempt net tc w u h Hurl Hu Hh)
    as (cfg & Hcu & Hch & Hcd & _ & _ & Hpending & Hsettled).
  assert (Hown : ownRequests tc [cfg]).
  { right. exists cfg. rewrite Hcu, Hch. auto. }
  destruct (answer (net cfg w)) as [r|e|] eqn:Ha.
  - left. destruct Hsettled as (o & Hrun & Hid & Hname & _); [discriminate|].
    rewrite Hrun. exists o. eexists. exists [cfg]. split; [reflexivity|].
    split; [|reflexivity].
    split; [assumption|]. split; [assumption|]. split; [assumption|]. split.
    + intros Hb. contradiction.
    + intros e' _ He. congruence.
  - left. destruct Hsettled as (o & Hrun & Hid & Hname & _); [discriminate|].
    rewrite Hrun. exists o. eexists. exists [cfg]. split; [reflexivity|].
    split; [|reflexivity].
    split; [assumption|]. split; [assumption|]. split; [assumption|]. split.
    + intros Hb. contradiction.
    + intros e' _ He. congruence.
  - right. rewrite (Hpending eq_refl). eexists. exists cfg.
    split; [reflexivity|assumption].
Qed.

(** The loop: it leaves the outcomes of its turns, or a call of the client
    never settles. *)
Lemma runEach_run (tcs : list TestCase) (acc : list Outcome) (w : World) :
  (exists traces w',
     runEach net tcs acc w = (Normal (acc ++ map fst traces), w')
     /\ Forall2 turn tcs traces
     /\ sent w' = sent w ++ concat (map snd traces))
  \/ (exists w' cfg w0,
        runEach net tcs acc w = (Pending, w') /\ answer (net cfg w0) = Pending).
Proof.
  revert acc w. induction tcs as [|tc tcs IH]; intros acc w.
  - left. exists [], w. cbn. rewrite !app_nil_r.
    split; [reflexivity|]. split; [constructor|reflexivity].
  - assert (Hstep :
      runEach net (tc :: tcs) acc w
      = match tryCatch (runTestCase net tc)
                (fun error =>
                   bind Date_nowISO (fun stamp => ret (thrownOutcome tc stamp error))) w
        with
        | (Normal o, w1) => runEach net tcs (acc ++ [o]) w1
        | (Throw e, w1) => (Throw e, w1)
        | (Pending, w1) => (Pending, w1)
        end) by reflexivity.
    rewrite Hstep. clear Hstep.
    destruct (turn_total tc w)
      as [(o & w1 & reqs & -> & Hturn & Hs1)|(w1 & cfg & -> & Ha)].
    + destruct (IH (acc ++ [o]) w1)
        as [(traces & w' & -> & Hall & Hs2)|(w' & cfg & w0 & -> & Ha)].
      * left. exists ((o, reqs) :: traces), w'. rewrite <- app_assoc.
        split; [reflexivity|]. split; [constructor; assumption|].
        cbn [map snd concat]. rewrite Hs2, Hs1, <- app_assoc. reflexivity.
      * right. exists w', cfg, w0. auto.
    + right. exists w1, cfg, w. auto.
Qed.

Lemma runEach_app (l1 l2 : list TestCase) (acc : list Outcome) (w : World) :
  runEach net (l1 ++ l2) acc w
  = match runEach net l1 acc w with
    | (Normal results, w1) => runEach net l2 results w1
    | (Throw e, w1) => (Throw e, w1)
    | (Pending, w1) => (Pending, w1)
    end.
Proof.
  revert acc w. induction l1 as [|tc l1 IH]; intros acc w; [reflexivity|].
  cbn [app runEach]. unfold bind at 1 3.
  destruct (tryCatch _ _ w) as [[o|e|] w1]; [apply IH|reflexivity|reflexivity].
Qed.

Lemma turns_ids (tcs : list TestCase) (traces : list (Outcome * list RequestConfig)) :
  Forall2 turn tcs traces -> map caseId (map fst traces) = map id tcs.
Proof.
  intros Hall.
  induction Hall as [|tc [o reqs] tcs' traces' (Hid & _) _ IH]; [reflexivity|].
  cbn in *. rewrite Hid, IH. reflexivity.
Qed.

Lemma turns_names (tcs : list TestCase) (traces : list (Outcome * list RequestConfig)) :
  Forall2 turn tcs traces -> map o_caseName (map fst traces) = map caseName tcs.
Proof.
  intros Hall.
  induction Hall as [|tc [o reqs] tcs' traces' (_ & Hn & _) _ IH]; [reflexivity|].
  cbn in *. rewrite Hn, IH. reflexivity.
Qed.

Lemma turns_requests (tcs : list TestCase) (traces : list (Outcome * list RequestConfig)) :
  Forall2 turn tcs traces -> Forall2 ownRequests tcs (map snd traces).
Proof.
  intros Hall.
  induction Hall as [|tc [o reqs] tcs' traces' (_ & _ & Hown & _) _ IH]; [constructor|].
  cbn. constructor; assumption.
Qed.

(** X17: when every call of the HTTP client settles, with a response or
    with an exception, a run of the list never throws and records one
    outcome for each test case, in the order of the list and under its id
    and its name, even where the runner throws.  Each test case has at most
    one request sent, its own, and the requests go out in the order of the
    list. *)
Theorem runEach_one_outcome_each (testCases : list TestCase) (w : World) :
  (forall cfg w0, answer (net cfg w0) <> Pending) ->
  exists results w' requests,
    runEach net testCases [] w = (Normal results, w')
    /\ map caseId results = map id testCases
    /\ map o_caseName results = map caseName testCases
    /\ sent w' = sent w ++ concat requests
    /\ Forall2 ownRequests testCases requests.
Proof.
  intros Hsettle.
  destruct (runEach_run testCases [] w)
    as [(traces & w' & Hrun & Hall & Hs)|(w' & cfg & w0 & _ & Ha)];
    [|exfalso; exact (Hsettle cfg w0 Ha)].
  exists (map fst traces), w', (map snd traces). split; [exact Hrun|].
  split; [apply turns_ids, Hall|]. split; [apply turns_names, Hall|].
  split; [exact Hs|]. apply turns_requests, Hall.
Qed.

(** X23: a call of the HTTP client that never settles blocks the run.  The
    loop never returns, so the outcomes recorded so far are handed to no
    report, and the request of that call is the last one sent: the test
    cases that follow are not run. *)
Theorem runEach_blocked (before after : list TestCase) (tc : TestCase)
  (w w1 w2 : World) (results : list Outcome) :
  runEach net before [] w = (Normal results, w1) ->
  runTestCase net tc w1 = (Pending, w2) ->
  runEach net (before ++ tc :: after) [] w = (Pending, w2)
  /\ exists cfg, sent w2 = sent w1 ++ [cfg] /\ answer (net cfg w1) = Pending.
Proof.
  intros Hbefore Hrun. split.
  - rewrite runEach_app, Hbefore. cbn [runEach]. unfold bind at 1, tryCatch.
    rewrite Hrun. reflexivity.
  - destruct (runTestCase_cases net tc w1)
      as [[_ Hr]|[(e & _ & _ & Hr)|[(cfg & _ & _ & Ha & Hr)|(cfg & o & _ & _ & Hr & _)]]];
      rewrite Hr in Hrun; try discriminate Hrun.
    injection Hrun as <-. exists cfg. split; [reflexivity|assumption].
Qed.

(** X18: a test case the runner throws on, for want of a URL or because
    its headers cannot be built, does not stop the run: its place in the
    results is taken by a failed outcome with no status, a duration of zero
    and the message of the error. *)
Theorem runEach_thrown (testCases : list TestCase) (w w' : World)
  (results : list Outcome) (i : nat) (tc : TestCase) (e : Exn) :
  runEach net testCases [] w = (Normal results, w') ->
  testCases !! i = Some tc ->
  (trim (orS (url tc) EmptyString) = EmptyString
   /\ e = Error "Missing URL for test case.")
  \/ (trim (orS (url tc) EmptyString) <> EmptyString
      /\ buildHeaders tc (isFormData (buildBody tc)) = Throw e) ->
  exists stamp, results !! i = Some (thrownOutcome tc stamp e).
Proof.
  intros Hrun Hi Hwhy.
  destruct (runEach_run testCases [] w)
    as [(traces & w1 & Hrun' & Hall & _)|(w1 & cfg & w0 & Hrun' & _)];
    rewrite Hrun' in Hrun; [|discriminate Hrun].
  injection Hrun as <- <-.
  destruct (Forall2_lookup_l _ _ _ _ _ Hall Hi)
    as ([o reqs] & Ho & _ & _ & _ & Hmiss & Hthrow).
  cbn [app]. rewrite list_lookup_fmap, Ho. cbn [fmap option_fmap option_map fst].
  cbn [fst] in Hmiss, Hthrow.
  destruct Hwhy as [[Hb ->]|[Hb Hh]].
  - destruct (Hmiss Hb) as [stamp ->]. exists stamp. reflexivity.
  - destruct (Hthrow e Hb Hh) as [stamp ->]. exists stamp. reflexivity.
Qed.

Lemma find_own (results : list Outcome) (i : nat) (o : Outcome) :
  NoDup (map caseId results) ->
  results !! i = Some o ->
  List.find (fun res => String.eqb (caseId res) (caseId o)) results = Some o.
Proof.
  revert i. induction results as [|r rs IH]; intros i Hnd Hi; [discriminate|].
  cbn [map] in Hnd. apply NoDup_cons in Hnd. destruct Hnd as [Hnotin Hnd].
  destruct i as [|i]; cbn in Hi.
  - injection Hi as ->. cbn. rewrite String.eqb_refl. reflexivity.
  - cbn [List.find]. destruct (String.eqb_spec (caseId r) (caseId o)) as [E|_].
    + exfalso. apply Hnotin. rewrite E.
      apply list_elem_of_fmap. exists o. split; [reflexivity|].
      apply list_elem_of_lookup. exists i. exact Hi.
    + apply (IH i); assumption.
Qed.

(** X19: when the saved test cases have distinct ids, a run attaches to
    each test case the summary of its own outcome. *)
Theorem runAllTestCases_last_runs (testCases : list TestCase) (w w' : World) (run : Run) :
  NoDup (map id testCases) ->
  runAllTestCases net false testCases w = (Normal (Some run), w') ->
  map fst (run_testCases run) = testCases
  /\ map snd (run_testCases run)
     = map (fun o => Some (lastRunOf o)) (run_results run)
  /\ map caseId (run_results run) = map id testCases.
Proof.
  intros Hnd. unfold runAllTestCases.
  destruct (Nat.eqb (length testCases) 0 || false); [discriminate|].
  unfold bind at 1.
  destruct (runEach_run testCases [] w)
    as [(traces & w1 & Hrun & Hall & _)|(w1 & cfg & w0 & Hrun & _)];
    rewrite Hrun; [|discriminate].
  apply turns_ids in Hall. rename Hall into Hids. cbn [app] in *.
  set (results := map fst traces) in *.
  unfold bind, Date_nowISO, Date_now, ret. intros [= <- <-].
  cbn [run_testCases run_results].
  assert (Hnd' : NoDup (map caseId results)) by (rewrite Hids; exact Hnd).
  split; [|split; [|exact Hids]].
  - rewrite map_map. rewrite <- (map_id testCases) at 2. apply map_ext.
    intros tc. unfold withLastRun. destruct (List.find _ _); reflexivity.
  - apply list_eq. intros i. rewrite map_map, !list_lookup_fmap.
    destruct (testCases !! i) as [tc|] eqn:Hi.
    + assert (Hlen : (i < length results)%nat).
      { rewrite <- (length_map caseId), Hids, length_map.
        apply lookup_lt_Some in Hi. exact Hi. }
      destruct (lookup_lt_is_Some_2 results i Hlen) as [o Ho].
      rewrite Ho. cbn [fmap option_fmap option_map].
      assert (Hid : caseId o = id tc).
      { assert (Hm : map caseId results !! i = map id testCases !! i) by (rewrite Hids; reflexivity).
        rewrite !list_lookup_fmap, Ho, Hi in Hm. cbn in Hm. congruence. }
      unfold withLastRun. rewrite <- Hid, (find_own results i o Hnd' Ho). reflexivity.
    + assert (Hnone : results !! i = None).
      { apply lookup_ge_None. rewrite <- (length_map caseId), Hids, length_map.
        apply lookup_ge_None in Hi. exact Hi. }
      rewrite Hnone. reflexivity.
Qed.

End BatchProperties.

Lemma generateAllureArchive_files_witness :
  exists v,
    generateAllureArchive (fun n => "id-" +:+ ofZ (Z.of_nat n)) 1700000000000
      [formCase] [passedOutcome; failedOutcome "Orphan" "boom"] noOptions !! 2%nat
    = Some ("id-1-result.json", stringify EmptyString v)
    /\ getField "uuid" v = Some (JStr "id-1")
    /\ getField "historyId" v = Some (JStr "case-1")
    /\ getField "start" v = Some (JNum (Fin 1699999999988))
    /\ getField "stop" v = Some (JNum (Fin 1700000000000))
    /\ getField "time" v = Some (JNum (Fin 12)).
Proof.
  destruct (proj2 (proj2 (generateAllureArchive_files
                            (fun n => "id-" +:+ ofZ (Z.of_nat n)) 1700000000000
                            [formCase] [passedOutcome; failedOutcome "Orphan" "boom"]
                            noOptions))
              1%nat (failedOutcome "Orphan" "boom") eq_refl)
    as (v & Hfile & Huuid & Hhist & Htimes).
  exists v. split; [exact Hfile|]. split; [exact Huuid|]. split; [exact Hhist|].
  exact (Htimes 12 eq_refl).
Defined.

Lemma runEach_one_outcome_each_witness :
  exists results w' requests,
    runEach (replyWith 35 (Normal okResponse))
      [ plainCase "GET" "   " (IsNum (Fin 200)); formCase ] [] world0
    = (Normal results, w')
    /\ map caseId results = ["case-1"; "case-2"]
    /\ map o_caseName results = [Some "Example"; Some "Upload"]
    /\ sent w' = sent world0 ++ concat requests
    /\ Forall2 ownRequests
         [ plainCase "GET" "   " (IsNum (Fin 200)); formCase ] requests.
Proof.
  apply (runEach_one_outcome_each (replyWith 35 (Normal okResponse))
           [ plainCase "GET" "   " (IsNum (Fin 200)); formCase ] world0).
  intros cfg w0. discriminate.
Defined.

Lemma runEach_blocked_witness :
  exists (w2 : World (rt := literalRuntime)) (cfg : RequestConfig (rt := literalRuntime)),
    runEach (hangsOn "https://api.example.com/upload")
      [ plainCase "GET" "https://api.example.com/ok" (IsNum (Fin 200));
        formCase;
        plainCase "GET" "https://api.example.com/later" (IsNum (Fin 200)) ] [] world0
    = (Pending, w2)
    /\ map rc_url (sent w2) = ["https://api.example.com/ok"; rc_url cfg]
    /\ rc_url cfg = "https://api.example.com/upload".
Proof.
  destruct (runEach (hangsOn "https://api.example.com/upload")
              [ plainCase "GET" "https://api.example.com/ok" (IsNum (Fin 200)) ] [] world0)
    as [[results|e|] w1] eqn:Hbefore;
    [|vm_compute in Hbefore; discriminate Hbefore
     |vm_compute in Hbefore; discriminate Hbefore].
  destruct (runTestCase (hangsOn "https://api.example.com/upload") formCase w1)
    as [[o|e|] w2] eqn:Hrun;
    [exfalso; revert Hrun; pose proof Hbefore as Hc; vm_compute in Hc;
     injection Hc as _ <-; vm_compute; discriminate
    |exfalso; revert Hrun; pose proof Hbefore as Hc; vm_compute in Hc;
     injection Hc as _ <-; vm_compute; discriminate
    |].
  destruct (runEach_blocked (hangsOn "https://api.example.com/upload")
              [ plainCase "GET" "https://api.example.com/ok" (IsNum (Fin 200)) ]
              [ plainCase "GET" "https://api.example.com/later" (IsNum (Fin 200)) ]
              formCase world0 w1 w2 results Hbefore Hrun)
    as (Hall & cfg & Hsent & Ha).
  exists w2, cfg. split; [exact Hall|].
  assert (Hu : rc_url cfg = "https://api.example.com/upload").
  { revert Ha. unfold hangsOn. cbn [answer].
    destruct (String.eqb_spec (rc_url cfg) "https://api.example.com/upload");
      [intros _; assumption|discriminate]. }
  split; [|exact Hu].
  rewrite Hsent, map_app. cbn [map]. f_equal.
  pose proof Hbefore as Hc. vm_compute in Hc. injection Hc as _ <-. reflexivity.
Defined.

Lemma runEach_thrown_witness :
  exists results w',
    runEach (replyWith 35 (Normal okResponse))
      [ plainCase "GET" "   " (IsNum (Fin 200));
        plainCase "GET" "https://api.example.com/ok" (IsNum (Fin 200)) ] [] world0
    = (Normal results, w')
    /\ length (sent w') = 1%nat
    /\ exists stamp,
         results !! 0%nat
         = Some (thrownOutcome (plainCase "GET" "   " (IsNum (Fin 200))) stamp
                   (Error "Missing URL for test case.")).
Proof.
  destruct (runEach (replyWith 35 (Normal okResponse))
              [ plainCase "GET" "   " (IsNum (Fin 200));
                plainCase "GET" "https://api.example.com/ok" (IsNum (Fin 200)) ]
              [] world0) as [[results|e|] w'] eqn:Hrun;
    [|vm_compute in Hrun; discriminate Hrun|vm_compute in Hrun; discriminate Hrun].
  exists results, w'. split; [reflexivity|]. split.
  - pose proof Hrun as Hc. vm_compute in Hc. injection Hc as <- <-. reflexivity.
  - exact (runEach_thrown _ _ _ _ _ 0%nat _ _ Hrun eq_refl
             (or_introl (conj eq_refl eq_refl))).
Defined.

Lemma runAllTestCases_last_runs_witness :
  exists run w',
    runAllTestCases (replyWith 35 (Normal okResponse)) false
      [ plainCase "GET" "https://api.example.com/ok" (IsNum (Fin 200)); formCase ] world0
    = (Normal (Some run), w')
    /\ map fst (run_testCases run)
       = [ plainCase "GET" "https://api.example.com/ok" (IsNum (Fin 200)); formCase ]
    /\ map snd (run_testCases run)
       = map (fun o => Some (lastRunOf o)) (run_results run)
    /\ map caseId (run_results run) = ["case-1"; "case-2"].
Proof.
  assert (Hsome : exists run w',
            runAllTestCases (replyWith 35 (Normal okResponse)) false
              [ plainCase "GET" "https://api.example.com/ok" (IsNum (Fin 200)); formCase ]
              world0 = (Normal (Some run), w')).
  { unfold runAllTestCases. cbn [length Nat.eqb orb]. unfold bind at 1.
    destruct (runEach_run (replyWith 35 (Normal okResponse))
                [ plainCase "GET" "https://api.example.com/ok" (IsNum (Fin 200)); formCase ]
                [] world0)
      as [(traces & w1 & -> & _)|(w1 & cfg & w0 & _ & Ha)]; [|discriminate Ha].
    eexists. eexists. reflexivity. }
  destruct Hsome as (run & w' & Hrun).
  exists run, w'. split; [exact Hrun|].
  assert (Hnd : NoDup (map id [ plainCase "GET" "https://api.example.com/ok"
                                   (IsNum (Fin 200)); formCase ]))
    by (apply (bool_decide_unpack _); vm_compute; exact I).
  apply (runAllTestCases_last_runs _ _ _ _ _ Hnd Hrun).
Defined.

(** ** The tags of the reports *)

Lemma countChar_app (c : ascii) (s t : string) :
  countChar c (s +:+ t) = (countChar c s + countChar c t)%nat.
Proof.
  induction s as [|a s IH]; [reflexivity|].
  rewrite append_cons. cbn [countChar]. rewrite IH. lia.
Qed.

Lemma countChar_absent (c : ascii) (s : string) :
  includes c s = false -> countChar c s = 0%nat.
Proof.
  induction s as [|a s IH]; [reflexivity|].
  cbn. destruct (Ascii.eqb a c); [discriminate|]. exact IH.
Qed.

Lemma countChar_escapeHtml (v : jsval) : countChar "<" (escapeHtml v) = 0%nat.
Proof.
  apply countChar_absent. unfold escapeHtml.
  rewrite (replacements_single_pass "&#39;" _ entity_39).
  apply includes_subst_entity. intros a.
  apply entity_no_markup; [left; reflexivity|reflexivity].
Qed.

Lemma list_sum_cons (n : nat) (l : list nat) : list_sum (n :: l) = (n + list_sum l)%nat.
Proof.
  reflexivity.
Qed.

Lemma countChar_join (c : ascii) (l : list string) :
  countChar c (join EmptyString l) = list_sum (map (countChar c) l).
Proof.
  induction l as [|x l IH]; [reflexivity|].
  destruct l as [|y l].
  - cbn. lia.
  - change (join EmptyString (x :: y :: l)) with (x +:+ EmptyString +:+ join EmptyString (y :: l)).
    rewrite !countChar_app, IH. cbn [map]. rewrite !list_sum_cons. cbn [countChar]. lia.
Qed.

Lemma list_sum_imap {A} (f : nat -> A -> string) (g : A -> nat) (c : ascii) (l : list A) :
  (forall i x, countChar c (f i x) = g x) ->
  list_sum (map (countChar c) (imap f l)) = list_sum (map g l).
Proof.
  revert f. induction l as [|x l IH]; intros f Hf; [reflexivity|].
  cbn [imap map]. rewrite !list_sum_cons, Hf, IH; [reflexivity|].
  intros i y. apply Hf.
Qed.

Section TagProperties.

Context {rt : Runtime}.

Lemma caseCard_tags (cases : gmap string TestCase) (idx : nat) (result : Outcome) :
  countChar "<" (caseCard cases idx result) = cardTags result.
Proof.
  unfold caseCard, cardTags. cbv zeta.
  destruct (ok result), (truthyS (warning result)), (truthyS (error result));
    rewrite !countChar_app, !countChar_escapeHtml; vm_compute; reflexivity.
Qed.

Lemma filterControls_tags (total passed failed warnings : nat) :
  countChar "<" (filterControls total passed failed warnings) = 8%nat.
Proof.
  unfold filterControls, filterButtons. rewrite countChar_join.
  cbn [imap map compose fst snd]. cbv beta. rewrite !list_sum_cons.
  rewrite !countChar_app, !countChar_escapeHtml. vm_compute. reflexivity.
Qed.

(** X20: the number of ['<'] in the preview is that of its frame and of its
    cards, whatever the names, URLs, warnings, errors and dates are: no text
    of a test case or of an outcome can add a tag to the document. *)
Theorem generateAllureHtml_tags (now : Z) (testCases : list TestCase)
  (results : list Outcome) (meta : Meta) :
  countChar "<" (generateAllureHtml now testCases results meta)
  = (63 + match results with
          | [] => 2
          | _ => list_sum (map cardTags results)
          end)%nat.
Proof.
  unfold generateAllureHtml. cbv zeta.
  rewrite !countChar_app, countChar_escapeHtml.
  replace (countChar "<" pageHead) with 16%nat by (vm_compute; reflexivity).
  replace (countChar "<" pageTail) with 8%nat by (vm_compute; reflexivity).
  assert (Hbody : countChar "<" (pageBody testCases results)
                  = (39 + match results with
                          | [] => 2
                          | _ => list_sum (map cardTags results)
                          end)%nat).
  { unfold pageBody. cbv zeta.
    set (cards := join EmptyString (imap (caseCard (casesById testCases)) results)).
    assert (Hcards : countChar "<" cards = list_sum (map cardTags results)).
    { subst cards. rewrite countChar_join. apply list_sum_imap.
      intros i x. apply caseCard_tags. }
    rewrite !countChar_app, !countChar_escapeHtml, filterControls_tags.
    destruct results as [|r rs].
    - vm_compute. reflexivity.
    - replace (blank cards) with false.
      + rewrite Hcards. generalize (list_sum (map cardTags (r :: rs))). intros n.
        vm_compute. reflexivity.
      + symmetry. subst cards. cbn [imap]. apply join_not_blank, caseCard_not_blank. }
  rewrite Hbody. lia.
Qed.

End TagProperties.

Ltac count_literals :=
  repeat match goal with
  | |- context [countChar ?c ?s] =>
      let v := eval vm_compute in (countChar c s) in
      change (countChar c s) with v
  end.

Lemma countChar_uint (d : Decimal.uint) :
  countChar "<" (NilEmpty.string_of_uint d) = 0%nat.
Proof.
  induction d; cbn; assumption || reflexivity.
Qed.

Lemma countChar_ofZ (z : Z) : countChar "<" (ofZ z) = 0%nat.
Proof.
  unfold ofZ, NilZero.string_of_int.
  destruct (Z.to_int z) as [d|d]; [|cbn [countChar]; change (Ascii.eqb "-" "<") with false];
    unfold NilZero.string_of_uint; destruct d; try reflexivity;
    try (apply countChar_uint); cbn [countChar Nat.add]; apply countChar_uint.
Qed.

Lemma countChar_padZeros (w : nat) (s : string) :
  countChar "<" (padZeros w s) = countChar "<" s.
Proof.
  unfold padZeros. induction (w - String.length s)%nat as [|k IH]; [reflexivity|].
  cbn [Nat.iter countChar]. exact IH.
Qed.

Lemma countChar_div1000ToString (n : number) :
  countChar "<" (div1000ToString n) = 0%nat.
Proof.
  destruct n as [z| | |]; try reflexivity.
  unfold div1000ToString, thousandthsToString, stripZeros.
  rewrite !countChar_app, countChar_ofZ.
  destruct (z <? 0); destruct (Z.abs z mod 1000 =? 0); cbn [countChar Nat.add];
    try reflexivity;
    rewrite countChar_app;
    destruct (Z.abs z mod 1000 mod 100 =? 0);
    [ rewrite countChar_ofZ; reflexivity
    | destruct (Z.abs z mod 1000 mod 10 =? 0);
      rewrite countChar_padZeros, countChar_ofZ; reflexivity
    | rewrite countChar_ofZ; reflexivity
    | destruct (Z.abs z mod 1000 mod 10 =? 0);
      rewrite countChar_padZeros, countChar_ofZ; reflexivity ].
Qed.

Lemma countChar_escapeXml (v : jsval) : countChar "<" (escapeXml v) = 0%nat.
Proof.
  apply countChar_absent, escapeXml_no_markup. left. reflexivity.
Qed.

Lemma countChar_joinLines (l : list string) :
  countChar "<" (join nl l) = list_sum (map (countChar "<") l).
Proof.
  induction l as [|x l IH]; [reflexivity|].
  destruct l as [|y l].
  - cbn. lia.
  - change (join nl (x :: y :: l)) with (x +:+ nl +:+ join nl (y :: l)).
    rewrite !countChar_app, IH. cbn [map]. rewrite !list_sum_cons.
    change (countChar "<" nl) with 0%nat. lia.
Qed.

Lemma testCaseEntry_tags (cases : gmap string TestCase) (result : Outcome) :
  countChar "<" (testCaseEntry cases result) = entryTags result.
Proof.
  unfold testCaseEntry, entryTags, failureBlock. cbv zeta.
  destruct (ok result).
  - rewrite !countChar_app, countChar_escapeXml, countChar_div1000ToString.
    vm_compute. reflexivity.
  - match goal with
    | |- context [blank ?b] => replace (blank b) with false by reflexivity
    end.
    rewrite !countChar_app, countChar_escapeXml, countChar_div1000ToString.
    assert (Hnum : forall o d, countChar "<" d = 0%nat -> countChar "<" (numOr o d) = 0%nat).
    { intros [z|] d Hd; cbn [numOr]; [apply countChar_ofZ|exact Hd]. }
    rewrite !Hnum by reflexivity.
    generalize (countChar "<" (orS (error result) "Request failed")). intros n.
    count_literals. lia.
Qed.

(** X21: the number of ['<'] in the JUnit document is that of its frame, of
    the elements of the outcomes and of the error messages of the failed
    ones: the names, the statuses and the durations add none, and an error
    message adds every ['<'] it holds. *)
Theorem generateJUnitReport_tags (testCases : list TestCase) (results : list Outcome) :
  countChar "<" (generateJUnitReport testCases results)
  = (3 + list_sum (map entryTags results))%nat.
Proof.
  unfold generateJUnitReport, junitOpening. cbv zeta.
  rewrite !countChar_app, !countChar_ofZ, countChar_joinLines, map_map.
  rewrite (map_ext _ entryTags) by (intros r; apply testCaseEntry_tags).
  generalize (list_sum (map entryTags results)). intros n.
  count_literals. lia.
Qed.
